(** * torchexpresso.contexts: a shallow embedding and its properties

    The module [torchexpresso/contexts.py] wires an experiment together
    from a nested configuration mapping: it loads classes by name,
    constructs them, and collects the results in context objects.

    Modelling decisions, all of them visible in the definitions below.

    - Python values are the type [value].  A [dict] that the caller owns
      and that the program may mutate (the experiment config and all its
      nested sections) lives in a store and is referred to by its
      address ([VDict]); aliasing is therefore what it is in Python.
      A [dict] that the program builds itself and never mutates after it
      has handed it over (providers, the prefixed parameter mappings, a
      loaded checkpoint) is kept by value ([VMap]).  Both keep their
      insertion order, as Python dicts do.
    - The classes that are loaded by name, and the libraries [torch] and
      [comet_ml], are external.  An instance is represented by the call
      that constructed it ([VInst]); a method call on an instance is
      recorded in a trace, in program order.
    - Exceptions are values of [error]; a computation returns either an
      error or a result, together with the state it leaves behind. *)

From Stdlib Require Import ZArith String Ascii DecimalString.
From stdpp Require Import base tactics option list gmap strings.

Local Open Scope string_scope.
Local Open Scope Z_scope.

(** ** Values *)

Set Warnings "-register-all".

Abbreviation loc := positive.

Inductive value : Type :=
| VNone
| VBool (b : bool)
| VInt (n : Z)
| VStr (s : string)
| VList (vs : list value)
| VDict (l : loc)
| VMap (items : list (string * value))
| VInst (pkg cls : string) (args : list value) (kwargs : list (string * value))
| VFun (name : string)
| VResult (obj : value) (meth : string) (args : list value)
| VRegistry (cls : string) (entries : list (string * value)).

(** An insertion-ordered dictionary with string keys. *)
Abbreviation odict := (list (string * value)).

Module OrderedDict.

Fixpoint get (d : odict) (k : string) : option value :=
  match d with
  | [] => None
  | (k', v) :: d' => if String.eqb k' k then Some v else get d' k
  end.

(** [d[k] = v]: an existing key keeps its position. *)
Fixpoint set (d : odict) (k : string) (v : value) : odict :=
  match d with
  | [] => [(k, v)]
  | (k', v') :: d' =>
      if String.eqb k' k then (k', v) :: d' else (k', v') :: set d' k v
  end.

Definition keys (d : odict) : list string := map fst d.

Definition mem (d : odict) (k : string) : bool :=
  match get d k with Some _ => true | None => false end.

(** [{**a, **b}]: the entries of [a], then those of [b] written over them. *)
Definition merge (a b : odict) : odict :=
  fold_left (fun acc kv => set acc (fst kv) (snd kv)) b a.

End OrderedDict.

(** ** Errors, state and the computation monad *)

Inductive error : Type :=
| KeyError (k : value)
| TypeError
| AttributeError (attr : string)
| ModuleNotFoundError (name : string)
| FileNotFoundError (path : string)
| FileExistsError (path : string)
| ValueError
| UnboundLocalError (name : string)
| DanglingReference (l : loc)
| Exception (msg : string).

Inductive event : Type :=
| ECall (obj : value) (meth : string) (args : list value) (kwargs : odict)
| ELogInfo (fmt : string) (args : list value)
| EPrint (line : string).

Record state : Type := mkState {
  heap : gmap loc odict;   (* the dicts of the caller, by address *)
  paths : gset string;     (* the paths that exist on the file system *)
  trace : list event       (* calls on external objects, oldest first *)
}.

Definition result (A : Type) : Type := error + A.

Definition M (A : Type) : Type := state -> result A * state.

Definition ret {A} (a : A) : M A := fun st => (inr a, st).

Definition bind {A B} (m : M A) (k : A -> M B) : M B :=
  fun st =>
    match m st with
    | (inr a, st') => k a st'
    | (inl e, st') => (inl e, st')
    end.

Definition raise {A} (e : error) : M A := fun st => (inl e, st).

Declare Scope py_scope.
Delimit Scope py_scope with py.
Notation "x <- m ;; k" := (bind m (fun x => k))
  (at level 100, m at next level, right associativity) : py_scope.
Notation "m ;;; k" := (bind m (fun _ => k))
  (at level 100, right associativity) : py_scope.
Local Open Scope py_scope.

Definition emit (e : event) : M unit :=
  fun st => (inr tt, mkState (heap st) (paths st) (trace st ++ [e])).

Definition get_dict (l : loc) : M odict :=
  fun st =>
    match heap st !! l with
    | Some d => (inr d, st)
    | None => (inl (DanglingReference l), st)
    end.

Definition put_dict (l : loc) (d : odict) : M unit :=
  fun st => (inr tt, mkState (<[l := d]> (heap st)) (paths st) (trace st)).

Definition lift {A} (r : result A) : M A := fun st => (r, st).

Fixpoint for_each {A S} (xs : list A) (acc : S) (body : A -> S -> M S) : M S :=
  match xs with
  | [] => ret acc
  | x :: xs' => acc' <- body x acc ;; for_each xs' acc' body
  end.

Fixpoint map_m {A B} (f : A -> M B) (xs : list A) : M (list B) :=
  match xs with
  | [] => ret []
  | x :: xs' => y <- f x ;; ys <- map_m f xs' ;; ret (y :: ys)
  end.

(** ** What the module takes from outside

    [find_class p c] is the class that [__import__(p, fromlist=c)]
    followed by [getattr(_, c)] finds, given by the parameter names of
    its constructor (what [inspect.signature] shows), or [None] where
    either step fails.  Where it fails, [import_error p] is the
    exception [__import__] raises for a module it cannot import
    ([ModuleNotFoundError], or [ValueError] for an empty name), and
    [None] for a module that imports: then it is [getattr] that fails.
    [name_of v] is the attribute [v.name] of an instance.
    [load_checkpoint_from_path] is imported from [torchexpresso.savers]
    and reads a checkpoint record from a file.  [os_makedirs p ps] is
    [os.makedirs(p)] on a file system where the paths [ps] exist: whether
    it returns or raises, and the paths that exist afterwards (the
    directory and the parents it had to create; what it had created
    when it raises). *)

Class World : Type := {
  cuda_is_available : bool;
  gettempdir : string;
  find_class : string -> string -> option (list string);
  import_error : string -> option error;
  name_of : value -> option string;
  load_checkpoint_from_path : value -> result value;
  os_makedirs : string -> gset string -> result unit * gset string
}.

(** ** The Python operations the module uses

    Only what [contexts.py] applies to a value is modelled, and every
    key it uses is a string.  On an instance of an external class
    ([VInst], [VResult], [VRegistry]) and on a function the container
    operations raise [TypeError]: such a class could define them, and
    the model does not follow it there. *)

Module Py.

Definition is_str (k : string) (v : value) : bool :=
  match v with VStr s => String.eqb s k | _ => false end.

Fixpoint prefix_at (p s : string) : bool :=
  match p, s with
  | EmptyString, _ => true
  | String a p', String b s' => Ascii.eqb a b && prefix_at p' s'
  | String _ _, EmptyString => false
  end.

(** [s.startswith(p)] *)
Definition startswith (s p : string) : bool := prefix_at p s.

(** [p in s] on strings: [p] occurs in [s]. *)
Fixpoint substring_of (p s : string) : bool :=
  prefix_at p s ||
  match s with
  | EmptyString => false
  | String _ s' => substring_of p s'
  end.

Fixpoint chars (s : string) : list value :=
  match s with
  | EmptyString => []
  | String a s' => VStr (String a EmptyString) :: chars s'
  end.

(** [k in v] *)
Definition contains (k : string) (v : value) : M bool :=
  match v with
  | VDict l => d <- get_dict l ;; ret (OrderedDict.mem d k)
  | VMap d => ret (OrderedDict.mem d k)
  | VList vs => ret (existsb (is_str k) vs)
  | VStr s => ret (substring_of k s)
  | _ => raise TypeError
  end.

Definition lookup (d : odict) (k : string) : M value :=
  match OrderedDict.get d k with
  | Some x => ret x
  | None => raise (KeyError (VStr k))
  end.

(** [v[k]] *)
Definition getitem (v : value) (k : string) : M value :=
  match v with
  | VDict l => d <- get_dict l ;; lookup d k
  | VMap d => lookup d k
  | _ => raise TypeError
  end.

(** [v[k] = x]; a mapping held by value is read-only. *)
Definition setitem (v : value) (k : string) (x : value) : M unit :=
  match v with
  | VDict l => d <- get_dict l ;; put_dict l (OrderedDict.set d k x)
  | _ => raise TypeError
  end.

(** [v.items()] *)
Definition items (v : value) : M odict :=
  match v with
  | VDict l => get_dict l
  | VMap d => ret d
  | _ => raise (AttributeError "items")
  end.

(** The elements [for x in v] runs through. *)
Definition iterate (v : value) : M (list value) :=
  match v with
  | VList vs => ret vs
  | VDict l => d <- get_dict l ;; ret (map VStr (OrderedDict.keys d))
  | VMap d => ret (map VStr (OrderedDict.keys d))
  | VStr s => ret (chars s)
  | _ => raise TypeError
  end.

(** The truth value of [v] in a condition; an instance of an external
    class counts as true, which is what Python does for a class that
    defines neither [__bool__] nor [__len__]. *)
Definition truthy (v : value) : M bool :=
  match v with
  | VNone => ret false
  | VBool b => ret b
  | VInt n => ret (negb (n =? 0))
  | VStr s => ret (negb (String.eqb s ""))
  | VList vs => ret (match vs with [] => false | _ => true end)
  | VDict l => d <- get_dict l ;; ret (match d with [] => false | _ => true end)
  | VMap d => ret (match d with [] => false | _ => true end)
  | VInst _ _ _ _ | VFun _ | VResult _ _ _ | VRegistry _ _ => ret true
  end.

Definition is_none (v : value) : bool :=
  match v with VNone => true | _ => false end.

Definition as_str (v : value) : M string :=
  match v with VStr s => ret s | _ => raise TypeError end.

(** [v + 1] *)
Definition add_one (v : value) : M value :=
  match v with
  | VInt n => ret (VInt (n + 1))
  | VBool b => ret (VInt ((if b then 1 else 0) + 1))
  | _ => raise TypeError
  end.

(** ["{:d}".format(v)] *)
Definition format_d (v : value) : M string :=
  match v with
  | VInt n => ret (NilZero.string_of_int (Z.to_int n))
  | VBool b => ret (if b then "1" else "0")
  | _ => raise ValueError
  end.

(** A mapping unpacked into keyword arguments: its entries, as they
    are at the call. *)
Definition unpack (v : value) : M odict :=
  match v with
  | VDict l => get_dict l
  | VMap d => ret d
  | _ => raise TypeError
  end.

(** [os.path.join(a, b)] on a POSIX system. *)
Definition ends_with_slash (a : string) : bool :=
  match rev (list_ascii_of_string a) with
  | c :: _ => Ascii.eqb c "/"%char
  | [] => false
  end.

Definition path_join (a b : string) : string :=
  if prefix_at "/" b then b
  else if String.eqb a "" || ends_with_slash a then a ++ b
  else a ++ "/" ++ b.

(** [os.path.exists(p)], for a path given as a string *)
Definition path_exists (p : value) : M bool :=
  match p with
  | VStr s => fun st => (inr (bool_decide (s ∈ paths st)), st)
  | _ => raise TypeError
  end.

(** [os.makedirs(p)]: the file system decides what is created and
    whether the call raises. *)
Definition makedirs `{World} (p : value) : M unit :=
  match p with
  | VStr s =>
      fun st =>
        let (r, created) := os_makedirs s (paths st) in
        (r, mkState (heap st) created (trace st))
  | _ => raise TypeError
  end.

(** A method call on an external object, made for its effect. *)
Definition call (obj : value) (meth : string) (args : list value)
    (kwargs : odict) : M unit :=
  emit (ECall obj meth args kwargs).

End Py.

Record pyclass : Type := mkClass {
  class_pkg : string;
  class_name : string;
  class_params : list string
}.

(** Calling a class: the instance is the call that made it. *)
Definition new (c : pyclass) (args : list value) (kwargs : odict) : value :=
  VInst (class_pkg c) (class_name c) args kwargs.

Definition PARAM_DRY_RUN : string := "dry_run".
Definition PARAM_CPU_ONLY : string := "cpu_only".
Definition PARAM_RESUME : string := "resume".

Definition is_dryrun (exp_params : value) : M value :=
  b <- Py.contains PARAM_DRY_RUN exp_params ;;
  if b then Py.getitem exp_params PARAM_DRY_RUN else ret (VBool false).

(** Modelled from the spec: [CallbackRegistry] and [SaverRegistry] are
    defined in [torchexpresso.callbacks] and [torchexpresso.savers], which
    are not part of the sources at hand.  The spec describes them as
    ordered, name-keyed collections of constructed instances; the
    entries are kept in registration order, and registering under a name
    that is taken replaces the entry. *)
Module Registry.

Definition empty : odict := [].

(** [registry[name] = instance] *)
Definition register (r : odict) (name : string) (v : value) : odict :=
  OrderedDict.set r name v.

(** [registry[ref]] *)
Definition resolve (r : odict) (ref : value) : M value :=
  match ref with
  | VStr name => Py.lookup r name
  | VList _ | VDict _ | VMap _ => raise TypeError
  | _ => raise (KeyError ref)
  end.

End Registry.

Definition torch_device (device_name : string) : value :=
  VInst "torch" "device" [VStr device_name] [].

Definition AverageLossMetric (comet : value) : value :=
  VInst "torchexpresso.callbacks.metrics" "AverageLossMetric" [comet] [].

(** [collate_variable_sequences] *)
Definition collate_variable_sequences {A B} (batch : list (A * B))
    : list A * list B :=
  let x := map fst batch in
  let y := map snd batch in
  (x, y).

Module ContextLoader.
Section WithWorld.
Context `{W : World}.

(** [__import__(python_package, fromlist=python_class)] and [getattr] *)
Definition import_class (python_package python_class : value) : M pyclass :=
  p <- Py.as_str python_package ;;
  c <- Py.as_str python_class ;;
  match find_class p c with
  | Some params => ret (mkClass p c params)
  | None =>
      match import_error p with
      | Some e => raise e
      | None => raise (AttributeError c)
      end
  end.

Definition load_device (force_cpu : value) : M value :=
  b <- Py.truthy force_cpu ;;
  let device_name :=
    if b then "cpu"
    else if cuda_is_available then "cuda:0" else "cpu" in
  ret (torch_device device_name).

Definition load_device_from_config (experiment_config : value) : M value :=
  let cpu_only := VBool false in
  params <- Py.getitem experiment_config "params" ;;
  b <- Py.contains PARAM_CPU_ONLY params ;;
  cpu_only <- (if b
               then params <- Py.getitem experiment_config "params" ;;
                    Py.getitem params PARAM_CPU_ONLY
               else ret cpu_only) ;;
  load_device cpu_only.

Definition load_step_config_dynamically (python_package python_class : value)
    (step_kwargs : value) : M value :=
  step_class <- import_class python_package python_class ;;
  if Py.is_none step_kwargs then ret (new step_class [] [])
  else kw <- Py.unpack step_kwargs ;; ret (new step_class [] kw).

Definition load_step_fn (step_config : value) : M value :=
  b <- Py.contains "kwargs" step_config ;;
  if b then
    p <- Py.getitem step_config "package" ;;
    c <- Py.getitem step_config "class" ;;
    kw <- Py.getitem step_config "kwargs" ;;
    load_step_config_dynamically p c kw
  else
    p <- Py.getitem step_config "package" ;;
    c <- Py.getitem step_config "class" ;;
    load_step_config_dynamically p c VNone.

Definition load_loss_fn_dynamically (python_package python_class : value)
    (loss_kwargs : value) : M value :=
  loss_class <- import_class python_package python_class ;;
  if Py.is_none loss_kwargs then ret (new loss_class [] [])
  else kw <- Py.unpack loss_kwargs ;; ret (new loss_class [] kw).

Definition load_loss_fn (loss_config : value) : M value :=
  b <- Py.contains "kwargs" loss_config ;;
  if b then
    p <- Py.getitem loss_config "package" ;;
    c <- Py.getitem loss_config "class" ;;
    kw <- Py.getitem loss_config "kwargs" ;;
    load_loss_fn_dynamically p c kw
  else
    p <- Py.getitem loss_config "package" ;;
    c <- Py.getitem loss_config "class" ;;
    load_loss_fn_dynamically p c VNone.

Definition is_comet_param (p : string) : bool :=
  String.eqb p "comet" || String.eqb p "experiment".

Definition load_callback_dynamically (python_package python_class : value)
    (comet : value) (clb_kwargs : value) : M value :=
  clb_class <- import_class python_package python_class ;;
  let inject_comet := existsb is_comet_param (class_params clb_class) in
  if Py.is_none clb_kwargs then
    if inject_comet then ret (new clb_class [comet] [])
    else ret (new clb_class [] [])
  else if inject_comet then
    kw <- Py.unpack clb_kwargs ;; ret (new clb_class [comet] kw)
  else
    kw <- Py.unpack clb_kwargs ;; ret (new clb_class [] kw).

Definition load_callback (clb_config comet : value) : M value :=
  b <- Py.contains "kwargs" clb_config ;;
  if b then
    p <- Py.getitem clb_config "package" ;;
    c <- Py.getitem clb_config "class" ;;
    kw <- Py.getitem clb_config "kwargs" ;;
    load_callback_dynamically p c comet kw
  else
    p <- Py.getitem clb_config "package" ;;
    c <- Py.getitem clb_config "class" ;;
    load_callback_dynamically p c comet VNone.

(** [callbacks[clb.name] = clb], also used for savers *)
Definition register_by_name (registry : odict) (v : value) : M odict :=
  match name_of v with
  | Some name => ret (Registry.register registry name v)
  | None => raise (AttributeError "name")
  end.

(** The body of the loop over the callback configs. *)
Definition load_callbacks_step (comet : value) (clb_config : value)
    (callbacks : odict) : M odict :=
  b <- Py.contains "kwargs" clb_config ;;
  (if b then
     clb_kwargs <- Py.getitem clb_config "kwargs" ;;
     has_metrics <- Py.contains "metrics" clb_kwargs ;;
     if has_metrics then
       refs_value <- Py.getitem clb_kwargs "metrics" ;;
       refs <- Py.iterate refs_value ;;
       ref_metrics <- map_m (Registry.resolve callbacks) refs ;;
       Py.setitem clb_kwargs "metrics" (VList ref_metrics)
     else ret tt
   else ret tt) ;;;
  clb <- load_callback clb_config comet ;;
  register_by_name callbacks clb.

Definition load_callbacks_from_config (exp_config comet : value) : M value :=
  let callbacks := Registry.empty in
  b <- Py.contains "callbacks" exp_config ;;
  callbacks <-
    (if b then
       clb_configs_value <- Py.getitem exp_config "callbacks" ;;
       clb_configs <- Py.iterate clb_configs_value ;;
       for_each clb_configs callbacks (load_callbacks_step comet)
     else
       let loss_default := AverageLossMetric comet in
       register_by_name callbacks loss_default) ;;
  ret (VRegistry "CallbackRegistry" callbacks).

Definition load_saver_dynamically (python_package python_class : value)
    (model_config task_config : value) (svr_kwargs : value) : M value :=
  svr_class <- import_class python_package python_class ;;
  if Py.is_none svr_kwargs then
    ret (new svr_class [model_config; task_config] [])
  else
    kw <- Py.unpack svr_kwargs ;;
    ret (new svr_class [model_config; task_config] kw).

Definition load_saver (srv_config model_config task_config : value)
    : M value :=
  b <- Py.contains "kwargs" srv_config ;;
  if b then
    p <- Py.getitem srv_config "package" ;;
    c <- Py.getitem srv_config "class" ;;
    kw <- Py.getitem srv_config "kwargs" ;;
    load_saver_dynamically p c model_config task_config kw
  else
    p <- Py.getitem srv_config "package" ;;
    c <- Py.getitem srv_config "class" ;;
    load_saver_dynamically p c model_config task_config VNone.

Definition load_savers_step (exp_config : value) (srv_config : value)
    (savers : odict) : M odict :=
  model_config <- Py.getitem exp_config "model" ;;
  task_config <- Py.getitem exp_config "task" ;;
  svr <- load_saver srv_config model_config task_config ;;
  register_by_name savers svr.

Definition load_savers_from_config (exp_config : value) : M value :=
  let savers := Registry.empty in
  b <- Py.contains "savers" exp_config ;;
  savers <-
    (if b then
       svr_configs_value <- Py.getitem exp_config "savers" ;;
       svr_configs <- Py.iterate svr_configs_value ;;
       for_each svr_configs savers (load_savers_step exp_config)
     else ret savers) ;;
  ret (VRegistry "SaverRegistry" savers).

Definition load_model_dynamically (python_package python_class : value)
    (model_params task : value) : M value :=
  model_class <- import_class python_package python_class ;;
  if Py.is_none model_params then ret (new model_class [task] [])
  else ret (new model_class [task; model_params] []).

Definition load_model_from_config (model_config task : value) : M value :=
  let model_params := VNone in
  b <- Py.contains "params" model_config ;;
  model_params <- (if b then Py.getitem model_config "params"
                   else ret model_params) ;;
  p <- Py.getitem model_config "package" ;;
  c <- Py.getitem model_config "class" ;;
  load_model_dynamically p c model_params task.

Definition load_env_dynamically (python_package python_class : value)
    (env_params task split_name device : value) : M value :=
  env_class <- import_class python_package python_class ;;
  ret (new env_class [task; env_params; split_name; device] []).

Definition load_env_from_config (env_config task split_name device : value)
    : M value :=
  let env_params := VNone in
  b <- Py.contains "params" env_config ;;
  env_params <- (if b then Py.getitem env_config "params"
                 else ret env_params) ;;
  p <- Py.getitem env_config "package" ;;
  c <- Py.getitem env_config "class" ;;
  load_env_dynamically p c env_params task split_name device.

Definition load_dataset_dynamically (python_package python_class : value)
    (dataset_params task split_name device : value) : M value :=
  dataset_class <- import_class python_package python_class ;;
  ret (new dataset_class [task; split_name; dataset_params; device] []).

Definition load_dataset_from_config
    (dataset_config task split_name device : value) : M value :=
  let ds_params := VNone in
  b <- Py.contains "params" dataset_config ;;
  ds_params <- (if b then Py.getitem dataset_config "params"
                else ret ds_params) ;;
  p <- Py.getitem dataset_config "package" ;;
  c <- Py.getitem dataset_config "class" ;;
  load_dataset_dynamically p c ds_params task split_name device.

Definition DataLoader (dataset batch_size : value) (shuffle : bool) : value :=
  VInst "torch.utils.data.dataloader" "DataLoader" [dataset]
    [("batch_size", batch_size); ("shuffle", VBool shuffle);
     ("collate_fn", VFun "collate_variable_sequences")].

(** The body of the loop over the split names; [env] is the local
    variable of that name, bound only when the config has an [env]
    entry. *)
Definition load_providers_step (experiment_config : value)
    (env : option value) (device : value) (split_name : string)
    (providers : odict) : M odict :=
  let split_or_env := VStr split_name in
  b <- Py.contains "env" experiment_config ;;
  split_or_env <-
    (if b then
       ds <- Py.getitem experiment_config "dataset" ;;
       ds_params <- Py.getitem ds "params" ;;
       Py.setitem ds_params "split_name" (VStr split_name) ;;;
       match env with
       | Some e => ret e
       | None => raise (UnboundLocalError "env")
       end
     else ret split_or_env) ;;
  ds <- Py.getitem experiment_config "dataset" ;;
  task <- Py.getitem experiment_config "task" ;;
  dataset <- load_dataset_from_config ds task split_or_env device ;;
  params <- Py.getitem experiment_config "params" ;;
  batch_size <- Py.getitem params "batch_size" ;;
  shuffle <-
    (if String.eqb split_name "train"
     then b <- Py.contains "env" experiment_config ;; ret (negb b)
     else ret false) ;;
  let provider := DataLoader dataset batch_size shuffle in
  ret (OrderedDict.set providers split_name provider).

Definition load_providers_from_config (experiment_config : value)
    (split_names : list string) (device : value) : M value :=
  let providers : odict := [] in
  b <- Py.contains "env" experiment_config ;;
  env <-
    (if b then
       env_config <- Py.getitem experiment_config "env" ;;
       task <- Py.getitem experiment_config "task" ;;
       e <- load_env_from_config env_config task (VStr "env") device ;;
       ret (Some e)
     else ret None) ;;
  providers <-
    for_each split_names providers
      (load_providers_step experiment_config env device) ;;
  ret (VMap providers).

Definition load_cometml_experiment (comet_config experiment_name : value)
    : M value :=
  let cometml_workspace := VNone in
  let cometml_project := VNone in
  b <- Py.contains "workspace" comet_config ;;
  cometml_workspace <-
    (if b then Py.getitem comet_config "workspace"
     else ret cometml_workspace) ;;
  b <- Py.contains "project_name" comet_config ;;
  cometml_project <-
    (if b then Py.getitem comet_config "project_name"
     else ret cometml_project) ;;
  offline <- Py.getitem comet_config "offline" ;;
  is_offline <- Py.truthy offline ;;
  experiment <-
    (if is_offline then
       let offline_directory := VNone in
       b <- Py.contains "offline_directory" comet_config ;;
       offline_directory <-
         (if b then Py.getitem comet_config "offline_directory"
          else ret offline_directory) ;;
       let offline_directory :=
         if Py.is_none offline_directory
         then VStr (Py.path_join gettempdir "cometml")
         else offline_directory in
       there <- Py.path_exists offline_directory ;;
       (if there then ret tt else Py.makedirs offline_directory) ;;;
       emit (ELogInfo "Writing CometML experiments to %s"
               [offline_directory]) ;;;
       ret (VInst "comet_ml" "OfflineExperiment" []
              [("workspace", cometml_workspace);
               ("project_name", cometml_project);
               ("offline_directory", offline_directory)])
     else
       api_key <- Py.getitem comet_config "api_key" ;;
       ret (VInst "comet_ml" "Experiment" []
              [("workspace", cometml_workspace);
               ("project_name", cometml_project);
               ("api_key", api_key)])) ;;
  Py.call experiment "set_name" [experiment_name] [] ;;;
  ret experiment.

End WithWorld.
End ContextLoader.

(** [apply_prefix], local to [log_config]: a new mapping whose keys are
    [prefix-name]. *)
Definition apply_prefix (params_dict : value) (prefix : string) : M value :=
  entries <- Py.items params_dict ;;
  ret (VMap (fold_left
               (fun acc kv =>
                  OrderedDict.set acc (prefix ++ "-" ++ fst kv) (snd kv))
               entries [])).

Definition log_config (comet experiment_config : value) : M unit :=
  b <- Py.contains "params" experiment_config ;;
  (if b then
     params <- Py.getitem experiment_config "params" ;;
     prefixed <- apply_prefix params "exp" ;;
     Py.call comet "log_parameters" [prefixed] []
   else ret tt) ;;;
  b <- Py.contains "model" experiment_config ;;
  (if b then
     model <- Py.getitem experiment_config "model" ;;
     b <- Py.contains "params" model ;;
     if b then
       model <- Py.getitem experiment_config "model" ;;
       params <- Py.getitem model "params" ;;
       prefixed <- apply_prefix params "model" ;;
       Py.call comet "log_parameters" [prefixed] []
     else ret tt
   else ret tt) ;;;
  b <- Py.contains "dataset" experiment_config ;;
  (if b then
     dataset <- Py.getitem experiment_config "dataset" ;;
     b <- Py.contains "params" dataset ;;
     if b then
       dataset <- Py.getitem experiment_config "dataset" ;;
       params <- Py.getitem dataset "params" ;;
       prefixed <- apply_prefix params "ds" ;;
       Py.call comet "log_parameters" [prefixed] []
     else ret tt
   else ret tt) ;;;
  b <- Py.contains "task" experiment_config ;;
  (if b then
     task <- Py.getitem experiment_config "task" ;;
     prefixed <- apply_prefix task "task" ;;
     Py.call comet "log_parameters" [prefixed] []
   else ret tt).

(** The body of the loop over the entries of a checkpoint. *)
Definition log_checkpoint_step (comet checkpoint : value)
    (entry_name : value) (_ : unit) : M unit :=
  match entry_name with
  | VStr name =>
      if Py.startswith name "cp-" then
        v <- Py.getitem checkpoint name ;;
        Py.call comet "log_other" [entry_name; v] []
      else ret tt
  | _ => raise (AttributeError "startswith")
  end.

Definition log_checkpoint (comet checkpoint : value) : M unit :=
  b <- Py.truthy comet ;;
  if b then
    entries <- Py.iterate checkpoint ;;
    for_each entries tt (log_checkpoint_step comet checkpoint)
  else ret tt.

(** ** The context classes

    A context object is its attribute [holder]. *)

Module ExperimentContext.
Section WithWorld.
Context `{W : World}.

Record t : Type := mk { holder : odict }.

(** [__init__] *)
Definition init (config comet device providers callbacks : value) : t :=
  let holder : odict := [] in
  let holder := OrderedDict.set holder "config" config in
  let holder := OrderedDict.set holder "comet" comet in
  let holder := OrderedDict.set holder "device" device in
  let holder := OrderedDict.set holder "providers" providers in
  let holder := OrderedDict.set holder "callbacks" callbacks in
  mk holder.

(** [__getitem__] *)
Definition getitem (self : t) (item : string) : M value :=
  Py.lookup (holder self) item.

Definition from_config (experiment_config : value)
    (split_names : list string) : M t :=
  comet_config <- Py.getitem experiment_config "cometml" ;;
  name <- Py.getitem experiment_config "name" ;;
  comet <- ContextLoader.load_cometml_experiment comet_config name ;;
  b <- Py.contains "tags" experiment_config ;;
  (if b then
     tags <- Py.getitem experiment_config "tags" ;;
     Py.call comet "add_tags" [tags] []
   else ret tt) ;;;
  log_config comet experiment_config ;;;
  callbacks <- ContextLoader.load_callbacks_from_config experiment_config comet ;;
  device <- ContextLoader.load_device_from_config experiment_config ;;
  providers <-
    ContextLoader.load_providers_from_config experiment_config split_names
      device ;;
  ret (init experiment_config comet device providers callbacks).

End WithWorld.
End ExperimentContext.

Module TrainingContext.
Section WithWorld.
Context `{W : World}.

Record t : Type := mk { holder : odict }.

(** [__init__] *)
Definition init (experiment_context : ExperimentContext.t)
    (model optimizer loss_fn step_fn epoch_start savers : value) : t :=
  let holder : odict := [] in
  let holder := OrderedDict.set holder "model" model in
  let holder := OrderedDict.set holder "optimizer" optimizer in
  let holder := OrderedDict.set holder "loss_fn" loss_fn in
  let holder := OrderedDict.set holder "step_fn" step_fn in
  let holder := OrderedDict.set holder "epoch_start" epoch_start in
  let holder := OrderedDict.set holder "savers" savers in
  let holder :=
    OrderedDict.merge holder (ExperimentContext.holder experiment_context) in
  mk holder.

(** [__getitem__] *)
Definition getitem (self : t) (item : string) : M value :=
  Py.lookup (holder self) item.

Definition is_dryrun (self : t) : M value :=
  config <- Py.lookup (holder self) "config" ;;
  params <- Py.getitem config "params" ;;
  is_dryrun params.

(** The local variable [ckpt], bound only in the resume branch. *)
Definition the_ckpt (ckpt : option value) : M value :=
  match ckpt with
  | Some c => ret c
  | None => raise (UnboundLocalError "ckpt")
  end.

Definition from_config (experiment_config : value)
    (split_names : list string) : M t :=
  experiment_context <-
    ExperimentContext.from_config experiment_config split_names ;;
  let epoch_start := VInt 1 in
  model_config <- Py.getitem experiment_config "model" ;;
  task <- Py.getitem experiment_config "task" ;;
  model <- ContextLoader.load_model_from_config model_config task ;;
  params <- Py.getitem experiment_config "params" ;;
  has_resume <- Py.contains PARAM_RESUME params ;;
  is_resume <-
    (if has_resume then
       params <- Py.getitem experiment_config "params" ;;
       Py.getitem params PARAM_RESUME
     else ret (VBool false)) ;;
  resuming <- Py.truthy is_resume ;;
  resumed <-
    (if resuming then
       params <- Py.getitem experiment_config "params" ;;
       path <- Py.getitem params "resume_checkpoint_path" ;;
       ckpt <- lift (load_checkpoint_from_path path) ;;
       comet <- ExperimentContext.getitem experiment_context "comet" ;;
       log_checkpoint comet ckpt ;;;
       state_dict <- Py.getitem ckpt "state_dict" ;;
       Py.call model "load_state_dict" [state_dict]
         [("strict", VBool false)] ;;;
       cp_epoch <- Py.getitem ckpt "cp-epoch" ;;
       epoch_start <- Py.add_one cp_epoch ;;
       line <- Py.format_d epoch_start ;;
       emit (EPrint ("Resume training from epoch: " ++ line)) ;;;
       ret (epoch_start, Some ckpt)
     else ret (epoch_start, None)) ;;
  let epoch_start := fst resumed in
  let ckpt := snd resumed in
  device <- ExperimentContext.getitem experiment_context "device" ;;
  Py.call model "to" [device] [] ;;;
  let optimizer :=
    VInst "torch.optim" "Adam" [VResult model "parameters" []] [] in
  resuming <- Py.truthy is_resume ;;
  (if resuming then
     ckpt <- the_ckpt ckpt ;;
     optimizer_state <- Py.getitem ckpt "optimizer" ;;
     Py.call optimizer "load_state_dict" [optimizer_state] []
   else ret tt) ;;;
  savers <- ContextLoader.load_savers_from_config experiment_config ;;
  params <- Py.getitem experiment_config "params" ;;
  b <- Py.contains "loss_fn" params ;;
  loss_fn <-
    (if b then
       params <- Py.getitem experiment_config "params" ;;
       loss_config <- Py.getitem params "loss_fn" ;;
       ContextLoader.load_loss_fn loss_config
     else
       ret (VInst "torch.nn" "CrossEntropyLoss" []
              [("ignore_index", VInt 0)])) ;;
  params <- Py.getitem experiment_config "params" ;;
  b <- Py.contains "step_fn" params ;;
  step_fn <-
    (if b then
       params <- Py.getitem experiment_config "params" ;;
       step_config <- Py.getitem params "step_fn" ;;
       ContextLoader.load_step_fn step_config
     else ret (VInst "torchexpresso.steps" "TrainingStep" [] [])) ;;
  ret (init experiment_context model optimizer loss_fn step_fn epoch_start
         savers).

End WithWorld.
End TrainingContext.

Module PredictionContext.
Section WithWorld.
Context `{W : World}.

Record t : Type := mk { holder : odict }.

(** [__init__] *)
Definition init (experiment_context : ExperimentContext.t) (model : value)
    : t :=
  let holder : odict := [] in
  let holder := OrderedDict.set holder "model" model in
  let holder :=
    OrderedDict.merge holder (ExperimentContext.holder experiment_context) in
  mk holder.

(** [__getitem__] *)
Definition getitem (self : t) (item : string) : M value :=
  Py.lookup (holder self) item.

Definition is_dryrun (self : t) : M value :=
  config <- Py.lookup (holder self) "config" ;;
  params <- Py.getitem config "params" ;;
  is_dryrun params.

Definition from_config (experiment_config : value)
    (split_names : list string) (model_path : value) : M t :=
  if Py.is_none model_path then
    raise (Exception
      "Missing 'model_path' argument. Please provide a path to the model.")
  else
    experiment_context <-
      ExperimentContext.from_config experiment_config split_names ;;
    ckpt <- lift (load_checkpoint_from_path model_path) ;;
    comet <- ExperimentContext.getitem experiment_context "comet" ;;
    log_checkpoint comet ckpt ;;;
    cp_model <- Py.getitem ckpt "cp-model" ;;
    cp_task <- Py.getitem ckpt "cp-task" ;;
    model <- ContextLoader.load_model_from_config cp_model cp_task ;;
    state_dict <- Py.getitem ckpt "state_dict" ;;
    Py.call model "load_state_dict" [state_dict] [("strict", VBool false)] ;;;
    device <- ExperimentContext.getitem experiment_context "device" ;;
    Py.call model "to" [device] [] ;;;
    ret (init experiment_context model).

End WithWorld.
End PredictionContext.

Module ProcessorContext.
Section WithWorld.
Context `{W : World}.

Record t : Type := mk { holder : odict }.

(** [__init__] *)
Definition init (experiment_context : ExperimentContext.t) : t :=
  let holder : odict := [] in
  let holder :=
    OrderedDict.merge holder (ExperimentContext.holder experiment_context) in
  mk holder.

(** [__getitem__] *)
Definition getitem (self : t) (item : string) : M value :=
  Py.lookup (holder self) item.

Definition is_dryrun (self : t) : M value :=
  config <- Py.lookup (holder self) "config" ;;
  params <- Py.getitem config "params" ;;
  is_dryrun params.

Definition from_config (experiment_config : value)
    (split_names : list string) : M t :=
  experiment_context <-
    ExperimentContext.from_config experiment_config split_names ;;
  ret (init experiment_context).

End WithWorld.
End ProcessorContext.

(** * Properties *)

(** ** Ordered dictionaries *)

Section OrderedDictFacts.

Implicit Types (d a b : odict) (k : string) (v : value).

Lemma od_get_set_eq d k v :
  OrderedDict.get (OrderedDict.set d k v) k = Some v.
Proof.
  induction d as [|[k' v'] d IH]; simpl.
  - by rewrite String.eqb_refl.
  - destruct (String.eqb k' k) eqn:E; simpl; rewrite E; done.
Qed.

Lemma od_get_set_ne d k k' v :
  k <> k' ->
  OrderedDict.get (OrderedDict.set d k v) k' = OrderedDict.get d k'.
Proof.
  intros Hne. induction d as [|[k0 v0] d IH]; simpl.
  - destruct (String.eqb k k') eqn:E; [|done].
    by apply String.eqb_eq in E.
  - destruct (String.eqb k0 k) eqn:E; simpl.
    + apply String.eqb_eq in E as ->.
      destruct (String.eqb k k') eqn:E'; [|done].
      by apply String.eqb_eq in E'.
    + by rewrite IH.
Qed.

Lemma od_get_set d k k' v :
  OrderedDict.get (OrderedDict.set d k v) k' =
  if String.eqb k k' then Some v else OrderedDict.get d k'.
Proof.
  destruct (String.eqb k k') eqn:E.
  - apply String.eqb_eq in E as <-. apply od_get_set_eq.
  - apply od_get_set_ne. by apply String.eqb_neq.
Qed.

Lemma od_get_Some_keys d k v :
  OrderedDict.get d k = Some v -> k ∈ OrderedDict.keys d.
Proof.
  induction d as [|[k' v'] d IH]; simpl; [done|].
  destruct (String.eqb k' k) eqn:E.
  - apply String.eqb_eq in E as ->. intros _. apply list_elem_of_here.
  - intros Hg. apply list_elem_of_further. auto.
Qed.

Lemma od_get_None_keys d k :
  OrderedDict.get d k = None <-> k ∉ OrderedDict.keys d.
Proof.
  induction d as [|[k' v'] d IH]; simpl.
  - split; [intros _; apply not_elem_of_nil | done].
  - destruct (String.eqb k' k) eqn:E.
    + apply String.eqb_eq in E as ->. split; [done|].
      intros Hn. exfalso. apply Hn, list_elem_of_here.
    + apply String.eqb_neq in E. rewrite IH, not_elem_of_cons.
      split; [intros Hn; split; [congruence | done] | by intros [_ Hn]].
Qed.

(** Writing a key that is there keeps the keys as they are; a new key
    goes to the end. *)
Lemma od_keys_set d k v :
  OrderedDict.keys (OrderedDict.set d k v) =
  if OrderedDict.mem d k then OrderedDict.keys d
  else (OrderedDict.keys d ++ [k])%list.
Proof.
  unfold OrderedDict.mem.
  induction d as [|[k' v'] d IH]; simpl; [done|].
  destruct (String.eqb k' k) eqn:E; simpl; [done|].
  rewrite IH. by destruct (OrderedDict.get d k).
Qed.

Lemma od_elem_of_keys_set d k k' v :
  k' ∈ OrderedDict.keys (OrderedDict.set d k v) <->
  k' = k \/ k' ∈ OrderedDict.keys d.
Proof.
  rewrite od_keys_set. unfold OrderedDict.mem.
  destruct (OrderedDict.get d k) eqn:E.
  - apply od_get_Some_keys in E. split; [by right|].
    intros [->|]; done.
  - rewrite elem_of_app, list_elem_of_singleton. tauto.
Qed.

Lemma od_NoDup_keys_set d k v :
  NoDup (OrderedDict.keys d) -> NoDup (OrderedDict.keys (OrderedDict.set d k v)).
Proof.
  intros Hnd. rewrite od_keys_set. unfold OrderedDict.mem.
  destruct (OrderedDict.get d k) eqn:E; [done|].
  apply od_get_None_keys in E.
  apply NoDup_app. split_and!; [done | | apply NoDup_singleton].
  intros x Hx Hx'. apply list_elem_of_singleton in Hx' as ->. done.
Qed.

(** The merge [{**a, **b}] reads as [b] wherever [b] has the key. *)
Lemma od_get_merge a b k :
  NoDup (OrderedDict.keys b) ->
  OrderedDict.get (OrderedDict.merge a b) k =
  match OrderedDict.get b k with
  | Some v => Some v
  | None => OrderedDict.get a k
  end.
Proof.
  unfold OrderedDict.merge. revert a.
  induction b as [|[k' v'] b IH]; intros a Hnd; cbn; [done|].
  cbn in Hnd. apply NoDup_cons in Hnd as [Hk' Hnd].
  rewrite IH by done.
  destruct (String.eqb k' k) eqn:E.
  - apply String.eqb_eq in E as ->.
    apply od_get_None_keys in Hk'. rewrite Hk'. apply od_get_set_eq.
  - apply String.eqb_neq in E. by rewrite od_get_set_ne.
Qed.

End OrderedDictFacts.

(** ** Running computations *)

Section MonadFacts.

Context {A B : Type}.

Lemma bind_inr (m : M A) (k : A -> M B) st b st' :
  bind m k st = (inr b, st') ->
  exists a st1, m st = (inr a, st1) /\ k a st1 = (inr b, st').
Proof.
  unfold bind. destruct (m st) as [[e|a] st1]; [done|]. eauto.
Qed.

Lemma bind_run (m : M A) (k : A -> M B) st a st1 :
  m st = (inr a, st1) -> bind m k st = k a st1.
Proof. unfold bind. by intros ->. Qed.

Lemma bind_fail (m : M A) (k : A -> M B) st e st1 :
  m st = (inl e, st1) -> bind m k st = (inl e, st1).
Proof. unfold bind. by intros ->. Qed.

End MonadFacts.

(** Splits a successful run of [x <- m ;; k] into the run of [m] and
    the run of [k]. *)
Ltac inv_bind_auto H :=
  let a := fresh "a" in
  let st := fresh "st" in
  let Hm := fresh "Hm" in
  apply bind_inr in H as (a & st & Hm & H).

Tactic Notation "inv_bind" hyp(H) "as" ident(a) ident(st) ident(Hm) :=
  apply bind_inr in H as (a & st & Hm & H).

Ltac inv_ret H :=
  simpl in H; unfold ret, raise in H; simplify_eq/=.

(** ** A state relation that every run respects *)

Definition keeps (R : relation state) {A} (m : M A) : Prop :=
  forall st, R st (m st).2.

Section Keeps.

Context (R : relation state) `{!PreOrder R}.

Lemma keeps_ret {A} (a : A) : keeps R (ret a).
Proof. intros st. simpl. reflexivity. Qed.

Lemma keeps_raise {A} e : keeps R (@raise A e).
Proof. intros st. simpl. reflexivity. Qed.

Lemma keeps_lift {A} (r : result A) : keeps R (lift r).
Proof. intros st. simpl. reflexivity. Qed.

Lemma keeps_bind {A B} (m : M A) (k : A -> M B) :
  keeps R m -> (forall a, keeps R (k a)) -> keeps R (bind m k).
Proof.
  intros Hm Hk st. unfold bind. specialize (Hm st).
  destruct (m st) as [[e|a] st1]; simpl in *; [done|].
  etrans; [done|]. apply Hk.
Qed.

Lemma keeps_for_each {A S} (xs : list A) (acc : S) body :
  (forall x acc, keeps R (body x acc)) -> keeps R (for_each xs acc body).
Proof.
  intros Hb. revert acc.
  induction xs as [|x xs IH]; intros acc; simpl.
  - apply keeps_ret.
  - apply keeps_bind; [apply Hb | intros; apply IH].
Qed.

Lemma keeps_map_m {A B} (f : A -> M B) (xs : list A) :
  (forall x, keeps R (f x)) -> keeps R (map_m f xs).
Proof.
  intros Hf. induction xs as [|x xs IH]; simpl.
  - apply keeps_ret.
  - apply keeps_bind; [apply Hf | intros y].
    apply keeps_bind; [apply IH | intros ys]. apply keeps_ret.
Qed.

End Keeps.

Lemma keeps_weaken (R R' : relation state) {A} (m : M A) :
  (forall st st', R st st' -> R' st st') -> keeps R m -> keeps R' m.
Proof. intros HR Hm st. apply HR, Hm. Qed.

(** Proves [keeps R m] by following the structure of [m]; what it
    cannot decide is left to the hints of [keeps_db]. *)
Create HintDb keeps_db discriminated.

Ltac keeps_step :=
  lazymatch goal with
  | |- keeps ?R (ret _) => apply (keeps_ret R)
  | |- keeps ?R (raise _) => apply (keeps_raise R)
  | |- keeps ?R (lift _) => apply (keeps_lift R)
  | |- keeps ?R (bind _ _) => apply (keeps_bind R); [|intros ?]
  | |- keeps ?R (for_each _ _ _) => apply (keeps_for_each R); intros ? ?
  | |- keeps ?R (map_m _ _) => apply (keeps_map_m R); intros ?
  | |- keeps _ (if ?b then _ else _) => destruct b
  | |- keeps _ (match ?x with _ => _ end) => destruct x
  | |- keeps _ _ => solve [eauto with keeps_db]
  end.

Ltac keeps_auto := repeat keeps_step.

(** The relations in use: the store is as it was; or its dicts are as
    they were at every key outside [K]. *)
Definition same_heap (st st' : state) : Prop := heap st' = heap st.

Definition touches (K : list string) (st st' : state) : Prop :=
  forall l,
    option_Forall2
      (fun d d' : odict =>
         forall k, k ∉ K -> OrderedDict.get d' k = OrderedDict.get d k)
      (heap st !! l) (heap st' !! l).

#[local] Instance same_heap_preorder : PreOrder same_heap.
Proof.
  split; [by intros st|].
  intros st1 st2 st3. unfold same_heap. congruence.
Qed.

#[local] Instance touches_preorder K : PreOrder (touches K).
Proof.
  split.
  - intros st l. destruct (heap st !! l); by constructor.
  - intros st1 st2 st3 H12 H23 l. specialize (H12 l). specialize (H23 l).
    destruct H12 as [d1 d2 H12|]; inversion H23 as [d2' d3 H23' E1 E2|];
      simplify_eq; constructor.
    intros k Hk. rewrite H23', H12; done.
Qed.

Lemma same_heap_touches K st st' : same_heap st st' -> touches K st st'.
Proof.
  unfold same_heap. intros E l. rewrite E.
  destruct (heap st !! l); by constructor.
Qed.

Lemma touches_mono K K' st st' :
  K ⊆ K' -> touches K st st' -> touches K' st st'.
Proof.
  intros Hsub Ht l. specialize (Ht l).
  destruct Ht as [d d' Hd|]; constructor.
  intros k Hk. apply Hd. intros Hin. apply Hk, Hsub, Hin.
Qed.

Lemma keeps_same_heap_touches K {A} (m : M A) :
  keeps same_heap m -> keeps (touches K) m.
Proof. apply keeps_weaken, same_heap_touches. Qed.

(** What [touches] says about one dict of the store. *)
Lemma touches_lookup K st st' l d :
  touches K st st' -> heap st !! l = Some d ->
  exists d', heap st' !! l = Some d' /\
    forall k, k ∉ K -> OrderedDict.get d' k = OrderedDict.get d k.
Proof.
  intros Ht Hl. specialize (Ht l). rewrite Hl in Ht.
  inversion Ht as [? d' Hd|]; simplify_eq. eauto.
Qed.

(** ** Which operations leave the store alone *)

Section ReadOnly.

Context `{W : World}.

Lemma get_dict_same_heap l : keeps same_heap (get_dict l).
Proof. intros st. unfold get_dict. by destruct (heap st !! l). Qed.

Lemma emit_same_heap e : keeps same_heap (emit e).
Proof. by intros st. Qed.

Lemma path_exists_same_heap p : keeps same_heap (Py.path_exists p).
Proof. intros st. by destruct p. Qed.

Lemma makedirs_same_heap p : keeps same_heap (Py.makedirs p).
Proof.
  intros st. destruct p; try done.
  unfold Py.makedirs. by destruct (os_makedirs _ _).
Qed.

Hint Resolve get_dict_same_heap emit_same_heap path_exists_same_heap
  makedirs_same_heap : keeps_db.

Ltac read_only := intros; keeps_auto.

Lemma lookup_same_heap d k : keeps same_heap (Py.lookup d k).
Proof. unfold Py.lookup. read_only. Qed.
Hint Resolve lookup_same_heap : keeps_db.

Lemma contains_same_heap k v : keeps same_heap (Py.contains k v).
Proof. unfold Py.contains. read_only. Qed.

Lemma getitem_same_heap v k : keeps same_heap (Py.getitem v k).
Proof. unfold Py.getitem. read_only. Qed.

Lemma items_same_heap v : keeps same_heap (Py.items v).
Proof. unfold Py.items. read_only. Qed.

Lemma iterate_same_heap v : keeps same_heap (Py.iterate v).
Proof. unfold Py.iterate. read_only. Qed.

Lemma truthy_same_heap v : keeps same_heap (Py.truthy v).
Proof. unfold Py.truthy. read_only. Qed.

Lemma as_str_same_heap v : keeps same_heap (Py.as_str v).
Proof. unfold Py.as_str. read_only. Qed.

Lemma add_one_same_heap v : keeps same_heap (Py.add_one v).
Proof. unfold Py.add_one. read_only. Qed.

Lemma format_d_same_heap v : keeps same_heap (Py.format_d v).
Proof. unfold Py.format_d. read_only. Qed.

Lemma unpack_same_heap v : keeps same_heap (Py.unpack v).
Proof. unfold Py.unpack. read_only. Qed.

Lemma call_same_heap o m args kw : keeps same_heap (Py.call o m args kw).
Proof. unfold Py.call. read_only. Qed.

Lemma resolve_same_heap r ref : keeps same_heap (Registry.resolve r ref).
Proof. unfold Registry.resolve. read_only. Qed.

Hint Resolve contains_same_heap getitem_same_heap items_same_heap
  iterate_same_heap truthy_same_heap as_str_same_heap add_one_same_heap
  format_d_same_heap unpack_same_heap call_same_heap resolve_same_heap
  : keeps_db.

Lemma is_dryrun_same_heap p : keeps same_heap (is_dryrun p).
Proof. unfold is_dryrun. read_only. Qed.

Lemma import_class_same_heap p c :
  keeps same_heap (ContextLoader.import_class p c).
Proof. unfold ContextLoader.import_class. read_only. Qed.
Hint Resolve import_class_same_heap : keeps_db.

Lemma load_device_same_heap f : keeps same_heap (ContextLoader.load_device f).
Proof. unfold ContextLoader.load_device. read_only. Qed.
Hint Resolve load_device_same_heap : keeps_db.

Lemma load_device_from_config_same_heap c :
  keeps same_heap (ContextLoader.load_device_from_config c).
Proof. unfold ContextLoader.load_device_from_config. read_only. Qed.

Lemma load_step_config_dynamically_same_heap p c kw :
  keeps same_heap (ContextLoader.load_step_config_dynamically p c kw).
Proof. unfold ContextLoader.load_step_config_dynamically. read_only. Qed.
Hint Resolve load_step_config_dynamically_same_heap : keeps_db.

Lemma load_step_fn_same_heap c : keeps same_heap (ContextLoader.load_step_fn c).
Proof. unfold ContextLoader.load_step_fn. read_only. Qed.

Lemma load_loss_fn_dynamically_same_heap p c kw :
  keeps same_heap (ContextLoader.load_loss_fn_dynamically p c kw).
Proof. unfold ContextLoader.load_loss_fn_dynamically. read_only. Qed.
Hint Resolve load_loss_fn_dynamically_same_heap : keeps_db.

Lemma load_loss_fn_same_heap c : keeps same_heap (ContextLoader.load_loss_fn c).
Proof. unfold ContextLoader.load_loss_fn. read_only. Qed.

Lemma load_callback_dynamically_same_heap p c comet kw :
  keeps same_heap (ContextLoader.load_callback_dynamically p c comet kw).
Proof. unfold ContextLoader.load_callback_dynamically. read_only. Qed.
Hint Resolve load_callback_dynamically_same_heap : keeps_db.

Lemma load_callback_same_heap c comet :
  keeps same_heap (ContextLoader.load_callback c comet).
Proof. unfold ContextLoader.load_callback. read_only. Qed.

Lemma register_by_name_same_heap r v :
  keeps same_heap (ContextLoader.register_by_name r v).
Proof. unfold ContextLoader.register_by_name. read_only. Qed.

Lemma load_saver_dynamically_same_heap p c m t kw :
  keeps same_heap (ContextLoader.load_saver_dynamically p c m t kw).
Proof. unfold ContextLoader.load_saver_dynamically. read_only. Qed.
Hint Resolve load_saver_dynamically_same_heap : keeps_db.

Lemma load_saver_same_heap c m t :
  keeps same_heap (ContextLoader.load_saver c m t).
Proof. unfold ContextLoader.load_saver. read_only. Qed.
Hint Resolve load_callback_same_heap register_by_name_same_heap
  load_saver_same_heap : keeps_db.

Lemma load_savers_step_same_heap c s r :
  keeps same_heap (ContextLoader.load_savers_step c s r).
Proof. unfold ContextLoader.load_savers_step. read_only. Qed.
Hint Resolve load_savers_step_same_heap : keeps_db.

Lemma load_savers_from_config_same_heap c :
  keeps same_heap (ContextLoader.load_savers_from_config c).
Proof. unfold ContextLoader.load_savers_from_config. read_only. Qed.

Lemma load_model_dynamically_same_heap p c ps t :
  keeps same_heap (ContextLoader.load_model_dynamically p c ps t).
Proof. unfold ContextLoader.load_model_dynamically. read_only. Qed.
Hint Resolve load_model_dynamically_same_heap : keeps_db.

Lemma load_model_from_config_same_heap c t :
  keeps same_heap (ContextLoader.load_model_from_config c t).
Proof. unfold ContextLoader.load_model_from_config. read_only. Qed.

Lemma load_env_dynamically_same_heap p c ps t s d :
  keeps same_heap (ContextLoader.load_env_dynamically p c ps t s d).
Proof. unfold ContextLoader.load_env_dynamically. read_only. Qed.
Hint Resolve load_env_dynamically_same_heap : keeps_db.

Lemma load_env_from_config_same_heap c t s d :
  keeps same_heap (ContextLoader.load_env_from_config c t s d).
Proof. unfold ContextLoader.load_env_from_config. read_only. Qed.

Lemma load_dataset_dynamically_same_heap p c ps t s d :
  keeps same_heap (ContextLoader.load_dataset_dynamically p c ps t s d).
Proof. unfold ContextLoader.load_dataset_dynamically. read_only. Qed.
Hint Resolve load_dataset_dynamically_same_heap : keeps_db.

Lemma load_dataset_from_config_same_heap c t s d :
  keeps same_heap (ContextLoader.load_dataset_from_config c t s d).
Proof. unfold ContextLoader.load_dataset_from_config. read_only. Qed.

Lemma load_cometml_experiment_same_heap c n :
  keeps same_heap (ContextLoader.load_cometml_experiment c n).
Proof. unfold ContextLoader.load_cometml_experiment. read_only. Qed.

Lemma apply_prefix_same_heap d p : keeps same_heap (apply_prefix d p).
Proof. unfold apply_prefix. read_only. Qed.
Hint Resolve apply_prefix_same_heap : keeps_db.

Lemma log_config_same_heap comet c : keeps same_heap (log_config comet c).
Proof. unfold log_config. read_only. Qed.

Lemma log_checkpoint_step_same_heap comet c e u :
  keeps same_heap (log_checkpoint_step comet c e u).
Proof. unfold log_checkpoint_step. read_only. Qed.
Hint Resolve log_checkpoint_step_same_heap : keeps_db.

Lemma log_checkpoint_same_heap comet c :
  keeps same_heap (log_checkpoint comet c).
Proof. unfold log_checkpoint. read_only. Qed.

End ReadOnly.

#[export] Hint Resolve get_dict_same_heap emit_same_heap
  path_exists_same_heap makedirs_same_heap lookup_same_heap
  contains_same_heap getitem_same_heap items_same_heap iterate_same_heap
  truthy_same_heap as_str_same_heap add_one_same_heap format_d_same_heap
  unpack_same_heap call_same_heap resolve_same_heap is_dryrun_same_heap
  import_class_same_heap load_device_same_heap
  load_device_from_config_same_heap load_step_fn_same_heap
  load_loss_fn_same_heap load_callback_same_heap register_by_name_same_heap
  load_savers_from_config_same_heap load_model_from_config_same_heap
  load_env_from_config_same_heap load_dataset_from_config_same_heap
  load_cometml_experiment_same_heap log_config_same_heap
  log_checkpoint_same_heap : keeps_db.

(** ** What the two writes to the config change *)

Section Writes.

Context `{W : World}.

Lemma setitem_touches v k x : keeps (touches [k]) (Py.setitem v k x).
Proof.
  intros st. destruct v; try (simpl; reflexivity).
  unfold Py.setitem, bind, get_dict.
  destruct (heap st !! l) as [d|] eqn:Hl; simpl; [|reflexivity].
  intros l'. cbn [heap]. destruct (decide (l' = l)) as [->|Hne].
  - rewrite Hl, lookup_insert_eq. constructor.
    intros k' Hk'. apply od_get_set_ne.
    intros ->. apply Hk', list_elem_of_here.
  - rewrite lookup_insert_ne by done.
    destruct (heap st !! l'); by constructor.
Qed.

Lemma setitem_dict_run l d k x st :
  heap st !! l = Some d ->
  Py.setitem (VDict l) k x st =
  (inr tt, mkState (<[l := OrderedDict.set d k x]> (heap st)) (paths st)
             (trace st)).
Proof. intros Hl. unfold Py.setitem, bind, get_dict. by rewrite Hl. Qed.

Lemma setitem_inr v k x st u st' :
  Py.setitem v k x st = (inr u, st') ->
  exists l d, v = VDict l /\ heap st !! l = Some d /\
    heap st' = <[l := OrderedDict.set d k x]> (heap st).
Proof.
  destruct v; try done. unfold Py.setitem, bind, get_dict.
  destruct (heap st !! l) as [d|] eqn:Hl; [|done].
  intros [= <- <-]. eauto.
Qed.

Hint Resolve keeps_same_heap_touches setitem_touches : keeps_db.

Lemma load_providers_step_touches c env dev s ps :
  keeps (touches ["split_name"])
    (ContextLoader.load_providers_step c env dev s ps).
Proof.
  unfold ContextLoader.load_providers_step. keeps_auto.
Qed.
Hint Resolve load_providers_step_touches : keeps_db.

Lemma load_providers_from_config_touches c ss dev :
  keeps (touches ["split_name"])
    (ContextLoader.load_providers_from_config c ss dev).
Proof.
  unfold ContextLoader.load_providers_from_config. keeps_auto.
Qed.

Lemma load_callbacks_step_touches comet c r :
  keeps (touches ["metrics"]) (ContextLoader.load_callbacks_step comet c r).
Proof.
  unfold ContextLoader.load_callbacks_step. keeps_auto.
Qed.
Hint Resolve load_callbacks_step_touches : keeps_db.

Lemma load_callbacks_from_config_touches c comet :
  keeps (touches ["metrics"])
    (ContextLoader.load_callbacks_from_config c comet).
Proof.
  unfold ContextLoader.load_callbacks_from_config. keeps_auto.
Qed.

(** The keys that building an experiment context may write. *)
Definition written_keys : list string := ["metrics"; "split_name"].

Lemma from_config_touches c ss :
  keeps (touches written_keys) (ExperimentContext.from_config c ss).
Proof.
  unfold ExperimentContext.from_config. keeps_auto.
  - eapply keeps_weaken; [|apply load_callbacks_from_config_touches].
    intros st st'. apply touches_mono.
    intros k ->%list_elem_of_singleton. unfold written_keys.
    repeat constructor.
  - eapply keeps_weaken; [|apply load_providers_from_config_touches].
    intros st st'. apply touches_mono.
    intros k ->%list_elem_of_singleton. unfold written_keys.
    repeat constructor.
Qed.

End Writes.

#[export] Hint Resolve keeps_same_heap_touches setitem_touches
  load_providers_step_touches load_providers_from_config_touches
  load_callbacks_step_touches load_callbacks_from_config_touches
  from_config_touches : keeps_db.

(** ** Reading the config in a later state *)

Section Reads.

Lemma get_dict_state l st : (get_dict l st).2 = st.
Proof. unfold get_dict. by destruct (heap st !! l). Qed.

Lemma contains_state k v st : (Py.contains k v st).2 = st.
Proof.
  destruct v; try done. unfold Py.contains, bind, get_dict.
  by destruct (heap st !! l).
Qed.

Lemma getitem_state v k st : (Py.getitem v k st).2 = st.
Proof.
  destruct v; try done; unfold Py.getitem, Py.lookup, bind, get_dict.
  - destruct (heap st !! l) as [d|]; [|done].
    by destruct (OrderedDict.get d k).
  - by destruct (OrderedDict.get items k).
Qed.

Lemma contains_inr k v st b st' :
  Py.contains k v st = (inr b, st') -> st' = st.
Proof. intros E. by rewrite <- (contains_state k v st), E. Qed.

Lemma getitem_inr v k st x st' :
  Py.getitem v k st = (inr x, st') -> st' = st.
Proof. intros E. by rewrite <- (getitem_state v k st), E. Qed.

(** A membership test does not see a write to another key. *)
Lemma contains_touches K k v st st' :
  k ∉ K -> touches K st st' ->
  (Py.contains k v st').1 = (Py.contains k v st).1.
Proof.
  intros Hk Ht. destruct v; try done.
  unfold Py.contains, bind, get_dict. specialize (Ht l).
  destruct Ht as [d d' Hd|]; [|done]. simpl.
  unfold OrderedDict.mem. by rewrite Hd.
Qed.

(** Nor does a subscript. *)
Lemma getitem_touches K k v st st' :
  k ∉ K -> touches K st st' ->
  (Py.getitem v k st').1 = (Py.getitem v k st).1.
Proof.
  intros Hk Ht. destruct v; try done.
  - unfold Py.getitem, Py.lookup, bind, get_dict. specialize (Ht l).
    destruct Ht as [d d' Hd|]; [|done]. simpl.
    rewrite Hd by done. by destruct (OrderedDict.get d k).
  - unfold Py.getitem, Py.lookup. by destruct (OrderedDict.get items k).
Qed.

End Reads.

(** From a run [Hm : m st = (r, st')], the relation [R st st'], where
    [tac] proves that [m] keeps [R]. *)
Ltac keeps_of Hm R tac :=
  lazymatch type of Hm with
  | ?m ?st = (_, ?st') =>
      let K := fresh "K" in
      assert (K : keeps R m) by tac;
      specialize (K st); rewrite Hm in K; simpl in K
  end.

(** * The properties of the specification *)

Section Claims.

Context `{W : World}.

Implicit Types (st : state) (cfg comet : value).

(** ** Merging the holders *)

Definition training_fields
    (model optimizer loss_fn step_fn epoch_start savers : value) : odict :=
  [("model", model); ("optimizer", optimizer); ("loss_fn", loss_fn);
   ("step_fn", step_fn); ("epoch_start", epoch_start); ("savers", savers)].

(** C1, as amended.  In the lookup structure that [TrainingContext],
    [PredictionContext] and [ProcessorContext] build, a key that the
    embedded experiment context has reads as the embedded context's
    value, also where the specialized context has a field of that name;
    every other key reads as the specialized context's own field. *)
Theorem merged_holder_reads_embedded_first
    (ectx : ExperimentContext.t) (k : string)
    (model optimizer loss_fn step_fn epoch_start savers : value) :
  NoDup (OrderedDict.keys (ExperimentContext.holder ectx)) ->
  let embedded := OrderedDict.get (ExperimentContext.holder ectx) k in
  OrderedDict.get
    (TrainingContext.holder
       (TrainingContext.init ectx model optimizer loss_fn step_fn
          epoch_start savers)) k
  = match embedded with
    | Some v => Some v
    | None =>
        OrderedDict.get
          (training_fields model optimizer loss_fn step_fn epoch_start savers)
          k
    end
  /\ OrderedDict.get
       (PredictionContext.holder (PredictionContext.init ectx model)) k
     = match embedded with
       | Some v => Some v
       | None => OrderedDict.get [("model", model)] k
       end
  /\ OrderedDict.get
       (ProcessorContext.holder (ProcessorContext.init ectx)) k
     = embedded.
Proof.
  intros Hnd embedded. subst embedded.
  unfold TrainingContext.init, PredictionContext.init, ProcessorContext.init.
  cbn [TrainingContext.holder PredictionContext.holder
       ProcessorContext.holder].
  rewrite !od_get_merge by done.
  split_and!; [done | done |].
  by destruct (OrderedDict.get (ExperimentContext.holder ectx) k).
Qed.

(** ** A missing model path *)

(** C8.  With a model path of [None], [PredictionContext.from_config]
    raises at once: the caller gets the exception, and the state is the
    one the call started in, so nothing was constructed, logged or
    written before. *)
Theorem prediction_without_model_path_raises cfg (split_names : list string)
    st :
  PredictionContext.from_config cfg split_names VNone st =
  (inl (Exception
          "Missing 'model_path' argument. Please provide a path to the model."),
   st).
Proof. reflexivity. Qed.

(** ** The device *)

(** C7.  When the params of the config set [cpu_only] to true, the
    device is the CPU, whether or not CUDA is available; when
    [cpu_only] is absent or false, the device is [cuda:0] exactly when
    CUDA is available, and the CPU otherwise. *)
Theorem device_follows_cpu_only st (lc lp : loc) (dc dp : odict)
    (flag : option bool) :
  heap st !! lc = Some dc ->
  OrderedDict.get dc "params" = Some (VDict lp) ->
  heap st !! lp = Some dp ->
  OrderedDict.get dp PARAM_CPU_ONLY = VBool <$> flag ->
  ContextLoader.load_device_from_config (VDict lc) st =
  (inr (torch_device
          match flag with
          | Some true => "cpu"
          | _ => if cuda_is_available then "cuda:0" else "cpu"
          end), st).
Proof.
  intros Hlc Hparams Hlp Hflag.
  unfold ContextLoader.load_device_from_config, ContextLoader.load_device,
    Py.getitem, Py.contains, Py.lookup, Py.truthy, OrderedDict.mem,
    bind, get_dict, ret.
  rewrite Hlc, Hparams, Hlp, Hflag.
  destruct flag as [[|]|]; simpl; rewrite ?Hlc, ?Hparams, ?Hlp, ?Hflag;
    reflexivity.
Qed.

(** ** The default callback *)

(** C10.  For a config without a [callbacks] entry the registry that
    [load_callbacks_from_config] returns is not empty: it holds exactly
    one callback, the [AverageLossMetric] constructed with the tracking
    client, under that callback's name. *)
Theorem default_callback_is_registered cfg comet st (name : string) :
  Py.contains "callbacks" cfg st = (inr false, st) ->
  name_of (AverageLossMetric comet) = Some name ->
  ContextLoader.load_callbacks_from_config cfg comet st =
  (inr (VRegistry "CallbackRegistry" [(name, AverageLossMetric comet)]), st).
Proof.
  intros Hno Hname. unfold ContextLoader.load_callbacks_from_config.
  rewrite (bind_run _ _ _ _ _ Hno).
  unfold ContextLoader.register_by_name. rewrite Hname. reflexivity.
Qed.

End Claims.

(** C1, as the specification has it, fails: where both have the key,
    the merged structure does not keep the specialized context's
    value. *)
Lemma specialized_value_is_overwritten :
  ~ (forall (ectx : ExperimentContext.t) (model : value) (k : string)
       (v : value),
       OrderedDict.get [("model", model)] k = Some v ->
       is_Some (OrderedDict.get (ExperimentContext.holder ectx) k) ->
       OrderedDict.get
         (PredictionContext.holder (PredictionContext.init ectx model)) k
       = Some v).
Proof.
  intros Hclaim.
  specialize (Hclaim (ExperimentContext.mk [("model", VStr "embedded")])
                (VStr "own") "model" (VStr "own") eq_refl (mk_is_Some _ _ eq_refl)).
  discriminate Hclaim.
Qed.
Section Providers.
Context `{W : World}.

Lemma contains_env_split_name cfg st st' :
  touches ["split_name"] st st' ->
  (Py.contains "env" cfg st').1 = (Py.contains "env" cfg st).1.
Proof.
  apply contains_touches. by intros [=]%list_elem_of_singleton.
Qed.

Lemma load_providers_step_inr cfg env dev s ps st ps' st' :
  ContextLoader.load_providers_step cfg env dev s ps st = (inr ps', st') ->
  exists dataset batch_size b,
    (Py.contains "env" cfg st).1 = inr b /\
    ps' = OrderedDict.set ps s
            (ContextLoader.DataLoader dataset batch_size
               (String.eqb s "train" && negb b)).
Proof.
  intros H. unfold ContextLoader.load_providers_step in H.
  inv_bind H as b st0 Hb. pose proof (contains_inr _ _ _ _ _ Hb) as ->.
  inv_bind H as split_or_env st1 Hsplit.
  keeps_of Hsplit (touches ["split_name"]) ltac:(keeps_auto).
  inv_bind H as ds st2 Hds. apply getitem_inr in Hds as ->.
  inv_bind H as task st2 Htask. apply getitem_inr in Htask as ->.
  inv_bind H as dataset st2 Hdataset.
  keeps_of Hdataset same_heap ltac:(keeps_auto).
  inv_bind H as params st3 Hparams. apply getitem_inr in Hparams as ->.
  inv_bind H as batch_size st3 Hbs. apply getitem_inr in Hbs as ->.
  inv_bind H as shuffle st3 Hshuffle. inv_ret H.
  exists dataset, batch_size, b. rewrite Hb. split; [done|].
  destruct (String.eqb s "train"); [|by inv_ret Hshuffle].
  inv_bind Hshuffle as b' st4 Hb'. inv_ret Hshuffle.
  assert (Ht : touches ["split_name"] st st2).
  { etrans; [done|]. by apply same_heap_touches. }
  apply (contains_env_split_name cfg) in Ht.
  rewrite Hb', Hb in Ht. simpl in Ht. by simplify_eq.
Qed.

Definition provider_of (has_env : bool) (s : string) (provider : value)
    : Prop :=
  exists dataset batch_size,
    provider = ContextLoader.DataLoader dataset batch_size
                 (String.eqb s "train" && negb has_env).

Lemma load_providers_loop cfg env dev ss ps st ps' st' b :
  for_each ss ps (ContextLoader.load_providers_step cfg env dev) st
  = (inr ps', st') ->
  (Py.contains "env" cfg st).1 = inr b ->
  (forall s p, OrderedDict.get ps s = Some p -> provider_of b s p) ->
  NoDup (OrderedDict.keys ps) ->
  (forall s p, OrderedDict.get ps' s = Some p -> provider_of b s p) /\
  NoDup (OrderedDict.keys ps') /\
  (forall s, s ∈ OrderedDict.keys ps' <-> s ∈ OrderedDict.keys ps \/ s ∈ ss).
Proof.
  revert ps st. induction ss as [|s0 ss IH]; intros ps st H Hb Hps Hnd.
  - inv_ret H. split; [exact Hps|split; [exact Hnd|]].
    intros s. rewrite elem_of_nil. tauto.
  - simpl in H. inv_bind H as ps1 st1 Hstep.
    keeps_of Hstep (touches ["split_name"]) ltac:(keeps_auto).
    apply load_providers_step_inr in Hstep
      as (dataset & batch_size & b0 & Hb0 & ->).
    rewrite Hb in Hb0. simplify_eq.
    apply IH in H as (Hps' & Hnd' & Hkeys).
    + split; [exact Hps'|split; [exact Hnd'|]].
      intros s. rewrite Hkeys, od_elem_of_keys_set.
      rewrite elem_of_cons. tauto.
    + rewrite <- Hb. by apply contains_env_split_name.
    + intros s p. rewrite od_get_set.
      destruct (String.eqb s0 s) eqn:E; [|by apply Hps].
      apply String.eqb_eq in E as ->. intros [= <-]. by eexists _, _.
    + by apply od_NoDup_keys_set.
Qed.

Lemma load_providers_from_config_inr cfg ss dev st v st' :
  ContextLoader.load_providers_from_config cfg ss dev st = (inr v, st') ->
  exists b ps,
    Py.contains "env" cfg st = (inr b, st) /\
    v = VMap ps /\
    (forall s p, OrderedDict.get ps s = Some p -> provider_of b s p) /\
    NoDup (OrderedDict.keys ps) /\
    (forall s, s ∈ OrderedDict.keys ps <-> s ∈ ss).
Proof.
  intros H. unfold ContextLoader.load_providers_from_config in H.
  inv_bind H as b st0 Hb. pose proof (contains_inr _ _ _ _ _ Hb) as ->.
  inv_bind H as env st1 Henv.
  keeps_of Henv (touches ["split_name"]) ltac:(keeps_auto).
  inv_bind H as ps st2 Hloop. inv_ret H.
  apply (load_providers_loop _ _ _ _ _ _ _ _ b) in Hloop
    as (Hps & Hnd & Hkeys).
  - exists b, ps. split_and!; try done.
    intros s. rewrite Hkeys, elem_of_nil. tauto.
  - rewrite (contains_env_split_name cfg st st1), Hb; done.
  - done.
  - apply NoDup_nil_2.
Qed.

(** C6.  The provider that [load_providers_from_config] returns for a
    split is a [DataLoader] whose [shuffle] argument is true if and only
    if the split is named [train] and the config has no [env] entry. *)
Theorem shuffle_iff_train_and_no_env cfg (split_names : list string) dev st
    providers st' (s : string) provider :
  ContextLoader.load_providers_from_config cfg split_names dev st
  = (inr providers, st') ->
  Py.getitem providers s st' = (inr provider, st') ->
  exists (has_env : bool) dataset batch_size (shuffle : bool),
    Py.contains "env" cfg st = (inr has_env, st) /\
    provider = ContextLoader.DataLoader dataset batch_size shuffle /\
    (shuffle = true <-> s = "train" /\ has_env = false).
Proof.
  intros (b & ps & Hb & -> & Hps & _ & _)%load_providers_from_config_inr Hget.
  unfold Py.getitem, Py.lookup in Hget.
  destruct (OrderedDict.get ps s) as [p|] eqn:E; [|done]. inv_ret Hget.
  destruct (Hps _ _ E) as (dataset & batch_size & ->).
  exists b, dataset, batch_size, (String.eqb s "train" && negb b).
  split_and!; [done..|].
  rewrite andb_true_iff, String.eqb_eq, negb_true_iff. done.
Qed.
End Providers.
Definition is_instance (v : value) : bool :=
  match v with VInst _ _ _ _ => true | _ => false end.

(** Takes successful runs apart, down to the operations of [Py]. *)
Ltac inv_run :=
  repeat match goal with
  | H : bind _ _ _ = (inr _, _) |- _ => inv_bind_auto H
  | H : ret _ _ = (inr _, _) |- _ => inv_ret H
  | H : raise _ _ = (inr _, _) |- _ => discriminate H
  | H : (if ?b then _ else _) _ = (inr _, _) |- _ => destruct b
  end.

Section ExperimentContextFacts.
Context `{W : World}.

Lemma load_cometml_experiment_inr c n st e st' :
  ContextLoader.load_cometml_experiment c n st = (inr e, st') ->
  is_instance e = true.
Proof.
  unfold ContextLoader.load_cometml_experiment. intros H.
  inv_run; done.
Qed.

Lemma experiment_context_from_config_inr cfg ss st ctx st' :
  ExperimentContext.from_config cfg ss st = (inr ctx, st') ->
  exists comet device providers callbacks st1 st2 st3,
    ctx = ExperimentContext.init cfg comet device providers callbacks /\
    is_instance comet = true /\
    same_heap st st1 /\
    ContextLoader.load_callbacks_from_config cfg comet st1
    = (inr callbacks, st2) /\
    same_heap st2 st3 /\
    ContextLoader.load_providers_from_config cfg ss device st3
    = (inr providers, st').
Proof.
  intros H. unfold ExperimentContext.from_config in H.
  inv_bind H as comet_config st0 Hcc. apply getitem_inr in Hcc as ->.
  inv_bind H as name st0 Hname. apply getitem_inr in Hname as ->.
  inv_bind H as comet st0 Hcomet.
  keeps_of Hcomet same_heap ltac:(keeps_auto).
  apply load_cometml_experiment_inr in Hcomet.
  inv_bind H as b st1 Hb. apply contains_inr in Hb as ->.
  inv_bind H as u st1 Htags.
  keeps_of Htags same_heap ltac:(keeps_auto).
  inv_bind H as u' st2 Hlog.
  keeps_of Hlog same_heap ltac:(keeps_auto).
  inv_bind H as callbacks st3 Hclb.
  inv_bind H as device st4 Hdev.
  keeps_of Hdev same_heap ltac:(keeps_auto).
  inv_bind H as providers st5 Hprov. inv_ret H.
  exists comet, device, providers, callbacks, st2, st3, st4.
  split_and!; try done.
  unfold same_heap in *. congruence.
Qed.

(** C3.  A context that [ExperimentContext.from_config] returns has
    exactly the keys [config], [comet], [device], [providers] and
    [callbacks], and its providers have exactly one entry for every
    requested split name and none for any other name. *)
Theorem experiment_context_keys cfg (split_names : list string) st ctx st' :
  ExperimentContext.from_config cfg split_names st = (inr ctx, st') ->
  OrderedDict.keys (ExperimentContext.holder ctx)
  = ["config"; "comet"; "device"; "providers"; "callbacks"] /\
  exists providers,
    OrderedDict.get (ExperimentContext.holder ctx) "providers"
    = Some (VMap providers) /\
    NoDup (OrderedDict.keys providers) /\
    (forall s, s ∈ OrderedDict.keys providers <-> s ∈ split_names).
Proof.
  intros (comet & device & providers & callbacks & st1 & st2 & st3 & ->
          & _ & _ & _ & _ & Hprov)%experiment_context_from_config_inr.
  apply load_providers_from_config_inr in Hprov
    as (b & ps & _ & -> & _ & Hnd & Hkeys).
  split; [reflexivity|]. by exists ps.
Qed.

End ExperimentContextFacts.
(** ** The prediction context *)

(** What [log_checkpoint] sends to the tracking client for a checkpoint
    record held by value: one [log_other] call for every entry whose
    name starts with [cp-], in the order of the record. *)
Definition checkpoint_event (comet : value) (ck : odict) (name : string)
    : list event :=
  if Py.startswith name "cp-" then
    match OrderedDict.get ck name with
    | Some v => [ECall comet "log_other" [VStr name; v] []]
    | None => []
    end
  else [].

Definition checkpoint_events (comet : value) (ck : odict) : list event :=
  flat_map (checkpoint_event comet ck) (OrderedDict.keys ck).

(** The arguments a model class is called with. *)
Definition model_args (model_config : odict) (task : value) : list value :=
  match OrderedDict.get model_config "params" with
  | Some params => if Py.is_none params then [task] else [task; params]
  | None => [task]
  end.

Definition logged (st : state) (events : list event) : state :=
  mkState (heap st) (paths st) (trace st ++ events).

Lemma bind_assoc {A B C} (m : M A) (f : A -> M B) (g : B -> M C) st :
  bind (bind m f) g st = bind m (fun a => bind (f a) g) st.
Proof. unfold bind. by destruct (m st) as [[e|a] st1]. Qed.

(** Runs the first computation of a sequence by a known equation. *)
Ltac run_with L :=
  rewrite ?bind_assoc; rewrite (bind_run _ _ _ _ _ L); cbv beta.

Section PredictionFacts.
Context `{W : World}.

Lemma logged_nil st : logged st [] = st.
Proof. destruct st. unfold logged. simpl. by rewrite app_nil_r. Qed.

Lemma logged_app st e1 e2 : logged (logged st e1) e2 = logged st (e1 ++ e2).
Proof. unfold logged. simpl. by rewrite app_assoc. Qed.

Lemma log_checkpoint_step_by_value comet ck name v st :
  OrderedDict.get ck name = Some v ->
  log_checkpoint_step comet (VMap ck) (VStr name) tt st
  = (inr tt, logged st (checkpoint_event comet ck name)).
Proof.
  intros Hv. unfold log_checkpoint_step, checkpoint_event.
  destruct (Py.startswith name "cp-").
  - unfold Py.getitem, Py.lookup, bind. by rewrite Hv.
  - by rewrite logged_nil.
Qed.

Lemma log_checkpoint_loop comet ck names st :
  Forall (fun name => is_Some (OrderedDict.get ck name)) names ->
  for_each (map VStr names) tt (log_checkpoint_step comet (VMap ck)) st
  = (inr tt, logged st (flat_map (checkpoint_event comet ck) names)).
Proof.
  intros Hnames. revert st.
  induction Hnames as [|name names [v Hv] _ IH]; intros st;
    cbn [map for_each flat_map].
  - by rewrite logged_nil.
  - rewrite (bind_run _ _ _ _ _ (log_checkpoint_step_by_value _ _ _ _ _ Hv)).
    by rewrite IH, logged_app.
Qed.

Lemma log_checkpoint_by_value comet ck st :
  is_instance comet = true ->
  log_checkpoint comet (VMap ck) st
  = (inr tt, logged st (checkpoint_events comet ck)).
Proof.
  intros Hcomet. destruct comet; try done.
  unfold log_checkpoint, bind. simpl.
  apply log_checkpoint_loop.
  apply Forall_forall. intros name Hin.
  destruct (OrderedDict.get ck name) eqn:E; [done|].
  by apply od_get_None_keys in E.
Qed.

Lemma getitem_map_run d k v st :
  OrderedDict.get d k = Some v -> Py.getitem (VMap d) k st = (inr v, st).
Proof. intros Hv. unfold Py.getitem, Py.lookup. by rewrite Hv. Qed.

Lemma load_model_by_value mc task st p c params :
  OrderedDict.get mc "package" = Some (VStr p) ->
  OrderedDict.get mc "class" = Some (VStr c) ->
  find_class p c = Some params ->
  ContextLoader.load_model_from_config (VMap mc) task st
  = (inr (VInst p c (model_args mc task) []), st).
Proof.
  intros Hp Hc Hfind.
  unfold ContextLoader.load_model_from_config,
    ContextLoader.load_model_dynamically, ContextLoader.import_class,
    model_args, Py.contains, Py.getitem, Py.lookup, OrderedDict.mem, bind.
  destruct (OrderedDict.get mc "params") as [ps|]; simpl;
    rewrite Hp, Hc; simpl; rewrite Hfind; simpl; [|done].
  by destruct (Py.is_none ps).
Qed.

(** C2.  [PredictionContext.from_config] builds the model from the
    entries [cp-model] and [cp-task] of the checkpoint record: its class
    and its arguments are the recorded ones, whatever the [model]
    section of the experiment config says.  It then loads the recorded
    weights with [strict=False] and moves the model to the device. *)
Theorem prediction_model_comes_from_checkpoint cfg (split_names : list string)
    model_path st ectx st0 (ck mc : odict) (p c : string)
    (params : list string) (task state_dict : value) :
  Py.is_none model_path = false ->
  ExperimentContext.from_config cfg split_names st = (inr ectx, st0) ->
  load_checkpoint_from_path model_path = inr (VMap ck) ->
  OrderedDict.get ck "cp-model" = Some (VMap mc) ->
  OrderedDict.get ck "cp-task" = Some task ->
  OrderedDict.get ck "state_dict" = Some state_dict ->
  OrderedDict.get mc "package" = Some (VStr p) ->
  OrderedDict.get mc "class" = Some (VStr c) ->
  find_class p c = Some params ->
  let model := VInst p c (model_args mc task) [] in
  exists comet device,
    OrderedDict.get (ExperimentContext.holder ectx) "comet" = Some comet /\
    OrderedDict.get (ExperimentContext.holder ectx) "device" = Some device /\
    PredictionContext.from_config cfg split_names model_path st
    = (inr (PredictionContext.init ectx model),
       logged st0
         (checkpoint_events comet ck ++
          [ECall model "load_state_dict" [state_dict]
             [("strict", VBool false)];
           ECall model "to" [device] []])) /\
    OrderedDict.get
      (PredictionContext.holder (PredictionContext.init ectx model)) "model"
    = Some model.
Proof.
  intros Hpath Hectx Hload Hmc Htask Hsd Hp Hc Hfind model.
  pose proof Hectx as Hinv.
  apply experiment_context_from_config_inr in Hinv
    as (comet & device & providers & callbacks & st1 & st2 & st3 & ->
        & Hcomet & _).
  exists comet, device. split; [done|]. split; [done|]. split; [|done].
  unfold PredictionContext.from_config. rewrite Hpath.
  run_with Hectx.
  unfold lift at 1, bind at 1. rewrite Hload.
  unfold ExperimentContext.getitem, bind at 1; simpl.
  run_with (log_checkpoint_by_value comet ck st0 Hcomet).
  run_with (getitem_map_run _ _ _ (logged st0 (checkpoint_events comet ck)) Hmc).
  run_with (getitem_map_run _ _ _ (logged st0 (checkpoint_events comet ck)) Htask).
  run_with (load_model_by_value _ task (logged st0 (checkpoint_events comet ck))
              _ _ _ Hp Hc Hfind).
  run_with (getitem_map_run _ _ _ (logged st0 (checkpoint_events comet ck)) Hsd).
  unfold Py.call, emit, bind, ret, logged. simpl.
  by rewrite <- !app_assoc.
Qed.

End PredictionFacts.
(** ** The training context *)

(** Proves that a literal key is none of the keys in a literal list. *)
Ltac not_written :=
  let H := fresh in
  intros H; try unfold written_keys in H;
  repeat (apply elem_of_cons in H as [[=]|H]);
  by apply elem_of_nil in H.

Section TrainingFacts.
Context `{W : World}.

Lemma getitem_dict_run l d k v st :
  heap st !! l = Some d -> OrderedDict.get d k = Some v ->
  Py.getitem (VDict l) k st = (inr v, st).
Proof.
  intros Hl Hv. unfold Py.getitem, Py.lookup, bind, get_dict.
  by rewrite Hl, Hv.
Qed.

Lemma contains_dict_run l d k st :
  heap st !! l = Some d ->
  Py.contains k (VDict l) st = (inr (OrderedDict.mem d k), st).
Proof. intros Hl. unfold Py.contains, bind, get_dict. by rewrite Hl. Qed.

(** Reading, in a later state, a key that was not written. *)
Lemma getitem_dict_later K st st' l d k v x st'' :
  touches K st st' -> k ∉ K ->
  heap st !! l = Some d -> OrderedDict.get d k = Some v ->
  Py.getitem (VDict l) k st' = (inr x, st'') -> x = v /\ st'' = st'.
Proof.
  intros Ht Hk Hl Hv Hget.
  destruct (touches_lookup _ _ _ _ _ Ht Hl) as (d' & Hl' & Hd').
  rewrite (getitem_dict_run _ _ _ v _ Hl') in Hget.
  - by simplify_eq.
  - by rewrite Hd'.
Qed.

Lemma contains_dict_later K st st' l d k b st'' :
  touches K st st' -> k ∉ K ->
  heap st !! l = Some d ->
  Py.contains k (VDict l) st' = (inr b, st'') ->
  b = OrderedDict.mem d k /\ st'' = st'.
Proof.
  intros Ht Hk Hl Hc.
  destruct (touches_lookup _ _ _ _ _ Ht Hl) as (d' & Hl' & Hd').
  rewrite (contains_dict_run _ _ _ _ Hl') in Hc. simplify_eq.
  unfold OrderedDict.mem. by rewrite Hd'.
Qed.

Lemma touches_same_heap K st st1 st2 :
  touches K st st1 -> same_heap st1 st2 -> touches K st st2.
Proof. intros Ht Hs. etrans; [done|]. by apply same_heap_touches. Qed.

(** C5.  When the params of the config set [resume] to true and the
    checkpoint at [resume_checkpoint_path] records [cp-epoch] as [n],
    the context that [TrainingContext.from_config] returns has
    [epoch_start = n + 1]; when [resume] is absent or false, it has
    [epoch_start = 1]. *)
Theorem training_starts_after_checkpoint_epoch (lc lp : loc) (dc dp : odict)
    (split_names : list string) st ctx st' (resume : option bool) (n : Z) :
  TrainingContext.from_config (VDict lc) split_names st = (inr ctx, st') ->
  heap st !! lc = Some dc ->
  OrderedDict.get dc "params" = Some (VDict lp) ->
  heap st !! lp = Some dp ->
  OrderedDict.get dp PARAM_RESUME = VBool <$> resume ->
  (resume = Some true ->
   exists path ck,
     OrderedDict.get dp "resume_checkpoint_path" = Some path /\
     load_checkpoint_from_path path = inr (VMap ck) /\
     OrderedDict.get ck "cp-epoch" = Some (VInt n)) ->
  OrderedDict.get (TrainingContext.holder ctx) "epoch_start"
  = Some (VInt match resume with Some true => n + 1 | _ => 1 end).
Proof.
  intros H Hlc Hparams Hlp Hresume Hck.
  unfold TrainingContext.from_config in H.
  inv_bind H as ectx st0 Hectx.
  keeps_of Hectx (touches written_keys) ltac:(keeps_auto).
  rename K into T.
  apply experiment_context_from_config_inr in Hectx
    as (comet & device & providers & callbacks & _ & _ & _ & -> & _).
  inv_bind H as model_config st1 Hmc. apply getitem_inr in Hmc as ->.
  inv_bind H as task st1 Htask. apply getitem_inr in Htask as ->.
  inv_bind H as model st1 Hmodel.
  keeps_of Hmodel same_heap ltac:(keeps_auto).
  apply (touches_same_heap _ _ _ _ T) in K. clear T Hmodel. rename K into T.
  inv_bind H as params st2 Hp.
  eapply getitem_dict_later in Hp as [Ex Est];
    [|done|not_written|done..]; subst params st2.
  inv_bind H as has_resume st2 Hhas.
  eapply contains_dict_later in Hhas as [Ex Est];
    [|done|not_written|done]; subst has_resume st2.
  inv_bind H as is_resume st2 Hisr.
  remember (match resume with Some true => true | _ => false end)
    as flag eqn:Hflagdef.
  assert (is_resume = VBool flag /\ st2 = st1) as [-> ->].
  { unfold OrderedDict.mem in Hisr. rewrite Hresume in Hisr.
    destruct resume as [r|]; simpl in Hisr.
    - inv_bind Hisr as params st3 Hp.
      eapply getitem_dict_later in Hp as [Ex Est];
        [|done|not_written|done..]; subst params st3.
      eapply getitem_dict_later in Hisr as [Ex Est];
        [|done|not_written|done|by rewrite Hresume].
      subst. by destruct r.
    - inv_ret Hisr. by subst. }
  inv_bind H as resuming sa Htruthy.
  unfold Py.truthy, ret in Htruthy. injection Htruthy as <- <-.
  inv_bind H as resumed sb Hresumed.
  assert (resumed.1 = VInt (if flag then n + 1 else 1)) as Hstart.
  { destruct flag eqn:Hflag; [|by inv_ret Hresumed].
    destruct Hck as (path & ck & Hpath & Hload & Hepoch).
    { by destruct resume as [[|]|]. }
    inv_bind Hresumed as params st3 Hp.
    eapply getitem_dict_later in Hp as [Ex Est];
      [|done|not_written|done..]; subst params st3.
    inv_bind Hresumed as path' st3 Hp.
    eapply getitem_dict_later in Hp as [Ex Est];
      [|done|not_written|done..]; subst path' st3.
    unfold lift at 1, bind at 1 in Hresumed. rewrite Hload in Hresumed.
    inv_bind Hresumed as comet' st3 Hcomet.
    inv_bind Hresumed as u st4 Hlog.
    inv_bind Hresumed as state_dict st5 Hsd.
    inv_bind Hresumed as u' st6 Hcall.
    inv_bind Hresumed as cp_epoch st7 Hcp.
    rewrite (getitem_map_run _ _ _ _ Hepoch) in Hcp. simplify_eq.
    inv_bind Hresumed as epoch_start st8 Hadd. inv_ret Hadd.
    inv_bind Hresumed as line sc Hline.
    inv_bind Hresumed as u'' sd Hemit. by inv_ret Hresumed. }
  clear Hresumed.
  replace (match resume with Some true => n + 1 | _ => 1 end)
    with (if flag then n + 1 else 1) by (subst flag; by destruct resume as [[|]|]).
  rewrite <- Hstart. clear Hstart Hck Hresume.
  inv_run; reflexivity.
Qed.

End TrainingFacts.
(** ** The callback registry *)

(** [ref] is the name of the registered callback [inst]. *)
Definition resolves_to (registry : odict) (ref inst : value) : Prop :=
  exists name, ref = VStr name /\ OrderedDict.get registry name = Some inst.

(** The positional arguments a callback class is called with: the
    tracking client, if the constructor has a parameter for it. *)
Definition callback_args (params : list string) (comet : value)
    : list value :=
  if existsb ContextLoader.is_comet_param params then [comet] else [].

Section CallbackFacts.
Context `{W : World}.

Lemma resolve_all registry refs insts st :
  Forall2 (resolves_to registry) refs insts ->
  map_m (Registry.resolve registry) refs st = (inr insts, st).
Proof.
  intros Hrefs. revert st.
  induction Hrefs as [|ref inst refs insts (name & -> & Hget) _ IH];
    intros st; cbn [map_m]; [done|].
  unfold bind at 1, Registry.resolve, Py.lookup. rewrite Hget.
  unfold ret at 1. unfold bind at 1. by rewrite IH.
Qed.

Lemma load_callback_run comet st lb db kw pb cb params kwargs :
  heap st !! lb = Some db ->
  OrderedDict.get db "kwargs" = Some kw ->
  Py.is_none kw = false ->
  Py.unpack kw st = (inr kwargs, st) ->
  OrderedDict.get db "package" = Some (VStr pb) ->
  OrderedDict.get db "class" = Some (VStr cb) ->
  find_class pb cb = Some params ->
  ContextLoader.load_callback (VDict lb) comet st
  = (inr (VInst pb cb (callback_args params comet) kwargs), st).
Proof.
  intros Hlb Hkw Hnone Hunpack Hp Hc Hfind.
  unfold ContextLoader.load_callback.
  run_with (contains_dict_run _ _ "kwargs" _ Hlb).
  unfold OrderedDict.mem. rewrite Hkw. cbv beta iota.
  run_with (getitem_dict_run _ _ _ _ _ Hlb Hp).
  run_with (getitem_dict_run _ _ _ _ _ Hlb Hc).
  run_with (getitem_dict_run _ _ _ _ _ Hlb Hkw).
  unfold ContextLoader.load_callback_dynamically,
    ContextLoader.import_class, Py.as_str.
  unfold bind at 1 2 3, ret at 1 2. rewrite Hfind. unfold ret at 1.
  rewrite Hnone. unfold callback_args. cbn [class_params].
  destruct (existsb ContextLoader.is_comet_param params);
    by run_with Hunpack.
Qed.

Lemma load_callbacks_step_resolves comet registry st lb db lk dk refs insts
    pb cb params name :
  heap st !! lb = Some db ->
  OrderedDict.get db "kwargs" = Some (VDict lk) ->
  heap st !! lk = Some dk ->
  OrderedDict.get dk "metrics" = Some (VList refs) ->
  Forall2 (resolves_to registry) refs insts ->
  OrderedDict.get db "package" = Some (VStr pb) ->
  OrderedDict.get db "class" = Some (VStr cb) ->
  find_class pb cb = Some params ->
  let kwargs := OrderedDict.set dk "metrics" (VList insts) in
  let inst := VInst pb cb (callback_args params comet) kwargs in
  name_of inst = Some name ->
  ContextLoader.load_callbacks_step comet (VDict lb) registry st
  = (inr (Registry.register registry name inst),
     mkState (<[lk := kwargs]> (heap st)) (paths st) (trace st)).
Proof.
  intros Hlb Hkw Hlk Hmetrics Hrefs Hp Hc Hfind kwargs inst Hname.
  unfold ContextLoader.load_callbacks_step.
  run_with (contains_dict_run _ _ "kwargs" _ Hlb).
  unfold OrderedDict.mem at 1. rewrite Hkw. cbv beta iota.
  run_with (getitem_dict_run _ _ _ _ _ Hlb Hkw).
  run_with (contains_dict_run _ _ "metrics" _ Hlk).
  unfold OrderedDict.mem at 1. rewrite Hmetrics. cbv beta iota.
  run_with (getitem_dict_run _ _ _ _ _ Hlk Hmetrics).
  rewrite ?bind_assoc. unfold Py.iterate. unfold bind at 1, ret at 1.
  run_with (resolve_all _ _ _ st Hrefs).
  run_with (setitem_dict_run _ _ "metrics" (VList insts) _ Hlk).
  fold kwargs.
  set (st2 := mkState (<[lk := kwargs]> (heap st)) (paths st) (trace st)).
  assert (Ht : touches ["metrics"] st st2).
  { pose proof (setitem_touches (VDict lk) "metrics" (VList insts) st) as Ht.
    by rewrite (setitem_dict_run _ _ _ _ _ Hlk) in Ht. }
  destruct (touches_lookup _ _ _ _ _ Ht Hlb) as (db2 & Hlb2 & Hdb2).
  assert (Hlk2 : heap st2 !! lk = Some kwargs) by apply lookup_insert_eq.
  assert (Hload : ContextLoader.load_callback (VDict lb) comet st2
                  = (inr inst, st2)).
  { apply load_callback_run with (db := db2) (kw := VDict lk); try done.
    - rewrite Hdb2 by not_written. done.
    - unfold Py.unpack, get_dict. by rewrite Hlk2.
    - rewrite Hdb2 by not_written. done.
    - rewrite Hdb2 by not_written. done. }
  run_with Hload.
  unfold ContextLoader.register_by_name. by rewrite Hname.
Qed.

(** C4.  For a callback list [[A; B]] in which the kwargs of [B] hold
    the list [metrics = [name of A]], [load_callbacks_from_config]
    constructs [A] first, writes the constructed [A] in the place of its
    name, and then constructs [B]: the keyword argument [metrics] that
    [B] is constructed with is the list holding the instance [A], and
    the registry holds [A] and then [B]. *)
Theorem metrics_names_become_instances comet st (lc lb lk : loc)
    (dc db dk : odict) (cA instA : value) (nameA nameB pb cb : string)
    (params : list string) st1 :
  heap st !! lc = Some dc ->
  OrderedDict.get dc "callbacks" = Some (VList [cA; VDict lb]) ->
  ContextLoader.load_callbacks_step comet cA Registry.empty st
  = (inr [(nameA, instA)], st1) ->
  heap st1 !! lb = Some db ->
  OrderedDict.get db "package" = Some (VStr pb) ->
  OrderedDict.get db "class" = Some (VStr cb) ->
  find_class pb cb = Some params ->
  OrderedDict.get db "kwargs" = Some (VDict lk) ->
  heap st1 !! lk = Some dk ->
  OrderedDict.get dk "metrics" = Some (VList [VStr nameA]) ->
  let kwargsB := OrderedDict.set dk "metrics" (VList [instA]) in
  let instB := VInst pb cb (callback_args params comet) kwargsB in
  name_of instB = Some nameB ->
  ContextLoader.load_callbacks_from_config (VDict lc) comet st
  = (inr (VRegistry "CallbackRegistry"
            (Registry.register [(nameA, instA)] nameB instB)),
     mkState (<[lk := kwargsB]> (heap st1)) (paths st1) (trace st1)) /\
  OrderedDict.get kwargsB "metrics" = Some (VList [instA]).
Proof.
  intros Hlc Hcallbacks HA Hlb Hp Hc Hfind Hkw Hlk Hmetrics kwargsB instB
    Hname.
  split; [|apply od_get_set_eq].
  unfold ContextLoader.load_callbacks_from_config.
  run_with (contains_dict_run _ _ "callbacks" _ Hlc).
  unfold OrderedDict.mem. rewrite Hcallbacks. cbv beta iota.
  run_with (getitem_dict_run _ _ _ _ _ Hlc Hcallbacks).
  run_with (eq_refl : Py.iterate (VList [cA; VDict lb]) st
                      = (inr [cA; VDict lb], st)).
  cbn [for_each].
  run_with HA.
  assert (Hrefs : Forall2 (resolves_to [(nameA, instA)]) [VStr nameA] [instA]).
  { repeat constructor. exists nameA. split; [done|].
    simpl. by rewrite String.eqb_refl. }
  run_with (load_callbacks_step_resolves comet _ st1 lb db lk dk _ _ pb cb
              params nameB Hlb Hkw Hlk Hmetrics Hrefs Hp Hc Hfind Hname).
  reflexivity.
Qed.

End CallbackFacts.
(** ** What construction writes into the config *)

(** A [metrics] entry as the callback loader leaves it: a list of
    constructed instances. *)
Definition metrics_instances (v : value) : Prop :=
  exists insts, v = VList insts /\ Forall (fun i => is_instance i = true) insts.

(** The store after the callbacks were loaded: every dict is as it was,
    except that a [metrics] entry may have been replaced by a list of
    instances. *)
Definition overwrites_metrics (st st' : state) : Prop :=
  forall l,
    option_Forall2
      (fun d d' : odict =>
         (forall k, k <> "metrics" ->
                    OrderedDict.get d' k = OrderedDict.get d k) /\
         match OrderedDict.get d "metrics" with
         | None => OrderedDict.get d' "metrics" = None
         | Some v =>
             exists v', OrderedDict.get d' "metrics" = Some v' /\
                        (v' = v \/ metrics_instances v')
         end)
      (heap st !! l) (heap st' !! l).

#[local] Instance overwrites_metrics_preorder : PreOrder overwrites_metrics.
Proof.
  split.
  - intros st l. destruct (heap st !! l) as [d|]; constructor.
    split; [done|]. destruct (OrderedDict.get d "metrics"); eauto.
  - intros st1 st2 st3 H12 H23 l. specialize (H12 l). specialize (H23 l).
    destruct H12 as [d1 d2 [Hk12 Hm12]|];
      inversion H23 as [d2' d3 [Hk23 Hm23] E1 E2|]; simplify_eq; constructor.
    split.
    + intros k Hk. by rewrite Hk23, Hk12.
    + destruct (OrderedDict.get d1 "metrics") as [v1|].
      * destruct Hm12 as (v2 & Hv2 & Hv12). rewrite Hv2 in Hm23.
        destruct Hm23 as (v3 & Hv3 & Hv23). exists v3. split; [done|].
        destruct Hv23 as [->|]; [done | by right].
      * by rewrite Hm12 in Hm23.
Qed.

Lemma same_heap_overwrites_metrics st st' :
  same_heap st st' -> overwrites_metrics st st'.
Proof.
  unfold same_heap. intros E l. rewrite E.
  destruct (heap st !! l) as [d|]; constructor.
  split; [done|]. destruct (OrderedDict.get d "metrics"); eauto.
Qed.

Lemma overwrites_metrics_touches st st' :
  overwrites_metrics st st' -> touches ["metrics"] st st'.
Proof.
  intros H l. specialize (H l). destruct H as [d d' [Hk _]|]; constructor.
  intros k Hk'. apply Hk. intros ->. apply Hk', list_elem_of_here.
Qed.

#[export] Hint Resolve same_heap_overwrites_metrics : keeps_db.

Lemma keeps_same_heap_overwrites_metrics {A} (m : M A) :
  keeps same_heap m -> keeps overwrites_metrics m.
Proof. apply keeps_weaken, same_heap_overwrites_metrics. Qed.

#[export] Hint Resolve keeps_same_heap_overwrites_metrics : keeps_db.

Section ConfigWrites.
Context `{W : World}.


Lemma contains_run k v st :
  Py.contains k v st = ((Py.contains k v st).1, st).
Proof.
  rewrite <- (contains_state k v st) at 3. by destruct (Py.contains k v st).
Qed.

(** A subscript that succeeds is on a key that is there. *)
Lemma getitem_contains v k st x :
  (Py.getitem v k st).1 = inr x -> (Py.contains k v st).1 = inr true.
Proof.
  destruct v; try done;
    unfold Py.getitem, Py.contains, Py.lookup, OrderedDict.mem, bind, get_dict.
  - destruct (heap st !! l) as [d|]; [|done]. simpl.
    by destruct (OrderedDict.get d k).
  - by destruct (OrderedDict.get items k).
Qed.

(** Loading the callbacks never removes or adds a [metrics] key. *)
Lemma contains_metrics_later v st st' :
  overwrites_metrics st st' ->
  (Py.contains "metrics" v st').1 = (Py.contains "metrics" v st).1.
Proof.
  intros H. destruct v; try done.
  unfold Py.contains, bind, get_dict. specialize (H l).
  destruct H as [d d' [_ Hm]|]; [|done]. simpl. unfold OrderedDict.mem.
  destruct (OrderedDict.get d "metrics").
  - by destruct Hm as (v' & -> & _).
  - by rewrite Hm.
Qed.

(** A [metrics] entry that holds instances holds instances ever after. *)
Lemma metrics_instances_later v st st' x :
  overwrites_metrics st st' ->
  (Py.getitem v "metrics" st).1 = inr x -> metrics_instances x ->
  exists x', (Py.getitem v "metrics" st').1 = inr x' /\ metrics_instances x'.
Proof.
  intros H Hx Hinst. destruct v; try done.
  - revert Hx. unfold Py.getitem, Py.lookup, bind, get_dict.
    specialize (H l). destruct H as [d d' [_ Hm]|]; [|done]. simpl.
    destruct (OrderedDict.get d "metrics") as [v|]; [|done].
    intros [= ->]. destruct Hm as (v' & -> & Hv'). exists v'.
    split; [done|]. by destruct Hv' as [->|].
  - exists x. split; [|done]. revert Hx. unfold Py.getitem, Py.lookup.
    by destruct (OrderedDict.get items "metrics").
Qed.

End ConfigWrites.
(** The entries of a registry are constructed instances. *)
Definition registry_of_instances (registry : odict) : Prop :=
  Forall (fun entry => is_instance entry.2 = true) registry.

Section CallbackWrites.
Context `{W : World}.

Lemma od_get_Some_elem (d : odict) k v :
  OrderedDict.get d k = Some v -> (k, v) ∈ d.
Proof.
  induction d as [|[k' v'] d IH]; simpl; [done|].
  destruct (String.eqb k' k) eqn:E.
  - apply String.eqb_eq in E as ->. intros [= ->]. apply list_elem_of_here.
  - intros Hg. apply list_elem_of_further. auto.
Qed.

Lemma registry_of_instances_register registry name v :
  registry_of_instances registry -> is_instance v = true ->
  registry_of_instances (Registry.register registry name v).
Proof.
  unfold registry_of_instances, Registry.register. intros Hreg Hv.
  induction Hreg as [|[k' v'] d Hhead Htail IH]; simpl.
  - by repeat constructor.
  - destruct (String.eqb k' name); constructor; done.
Qed.

Lemma resolve_inr registry ref st inst st' :
  registry_of_instances registry ->
  Registry.resolve registry ref st = (inr inst, st') ->
  st' = st /\ is_instance inst = true.
Proof.
  intros Hreg. destruct ref; try done.
  unfold Registry.resolve, Py.lookup.
  destruct (OrderedDict.get registry s) as [v|] eqn:E; [|done].
  intros [= <- <-]. split; [done|].
  apply od_get_Some_elem in E.
  unfold registry_of_instances in Hreg. rewrite Forall_forall in Hreg.
  apply (Hreg _ E).
Qed.

Lemma resolve_all_inr registry refs st insts st' :
  registry_of_instances registry ->
  map_m (Registry.resolve registry) refs st = (inr insts, st') ->
  st' = st /\ Forall (fun i => is_instance i = true) insts.
Proof.
  intros Hreg. revert st insts st'.
  induction refs as [|ref refs IH]; intros st insts st' H; cbn [map_m] in H.
  - inv_ret H. by split.
  - inv_bind H as inst st1 Hinst.
    apply resolve_inr in Hinst as [-> Hi]; [|done].
    inv_bind H as insts' st2 Hrest. apply IH in Hrest as [-> Hinsts].
    inv_ret H. split; [done|]. by constructor.
Qed.

Lemma load_callback_inr c comet st clb st' :
  ContextLoader.load_callback c comet st = (inr clb, st') ->
  is_instance clb = true.
Proof.
  unfold ContextLoader.load_callback, ContextLoader.load_callback_dynamically.
  intros H. inv_run; done.
Qed.

Lemma register_by_name_inr registry v st registry' st' :
  ContextLoader.register_by_name registry v st = (inr registry', st') ->
  exists name, registry' = Registry.register registry name v.
Proof.
  unfold ContextLoader.register_by_name.
  destruct (name_of v) as [name|]; [|done]. intros H. inv_ret H. eauto.
Qed.

(** Writing a list of instances over a [metrics] entry that is there. *)
Lemma setitem_metrics_overwrites kw insts st u st' :
  (Py.contains "metrics" kw st).1 = inr true ->
  Forall (fun i => is_instance i = true) insts ->
  Py.setitem kw "metrics" (VList insts) st = (inr u, st') ->
  overwrites_metrics st st' /\
  (Py.getitem kw "metrics" st').1 = inr (VList insts).
Proof.
  intros Hhas Hinsts Hset.
  apply setitem_inr in Hset as (l & d & -> & Hl & Hheap).
  revert Hhas. unfold Py.contains, bind, get_dict. rewrite Hl. simpl.
  unfold OrderedDict.mem.
  destruct (OrderedDict.get d "metrics") as [old|] eqn:Hold; [|done].
  intros _. split.
  - intros l'. rewrite Hheap. destruct (decide (l' = l)) as [->|Hne].
    + rewrite Hl, lookup_insert_eq. constructor. split.
      * intros k Hk. by apply od_get_set_ne.
      * rewrite Hold, od_get_set_eq. eexists. split; [done|].
        right. by eexists.
    + rewrite lookup_insert_ne by done.
      destruct (heap st !! l') as [d'|]; constructor.
      split; [done|]. destruct (OrderedDict.get d' "metrics"); eauto.
  - unfold Py.getitem, Py.lookup, bind, get_dict.
    rewrite Hheap, lookup_insert_eq. simpl. by rewrite od_get_set_eq.
Qed.

End CallbackWrites.
(** A callback config whose kwargs have a [metrics] entry reads, in the
    state [st'], a list of instances there. *)
Definition metrics_resolved (st st' : state) (c : value) : Prop :=
  forall kw,
    (Py.getitem c "kwargs" st).1 = inr kw ->
    (Py.contains "metrics" kw st).1 = inr true ->
    exists x, (Py.getitem kw "metrics" st').1 = inr x /\ metrics_instances x.

Section CallbackLoop.
Context `{W : World}.

Lemma load_callbacks_step_inr comet c registry st registry' st' :
  registry_of_instances registry ->
  ContextLoader.load_callbacks_step comet c registry st
  = (inr registry', st') ->
  overwrites_metrics st st' /\
  registry_of_instances registry' /\
  metrics_resolved st st' c.
Proof.
  intros Hreg H. unfold ContextLoader.load_callbacks_step in H.
  inv_bind H as b st0 Hb. pose proof (contains_inr _ _ _ _ _ Hb) as ->.
  inv_bind H as u st1 Hwrite.
  inv_bind H as clb st2 Hclb.
  keeps_of Hclb same_heap ltac:(keeps_auto). rename K into Hsame.
  apply load_callback_inr in Hclb.
  apply register_by_name_inr in H as Hregister.
  keeps_of H same_heap ltac:(keeps_auto). rename K into Hsame'.
  destruct Hregister as (name & ->).
  assert (Hrest : same_heap st1 st') by (unfold same_heap in *; congruence).
  clear Hsame Hsame' H.
  assert (overwrites_metrics st st1 /\ metrics_resolved st st1 c)
    as [Hst1 Hres].
  { destruct b.
    - inv_bind Hwrite as kw st3 Hkw.
      pose proof (getitem_inr _ _ _ _ _ Hkw) as ->.
      inv_bind Hwrite as has_metrics st3 Hhas.
      pose proof (contains_inr _ _ _ _ _ Hhas) as ->.
      destruct has_metrics.
      + inv_bind Hwrite as refs_value st3 Hrv.
        apply getitem_inr in Hrv as ->.
        inv_bind Hwrite as refs st3 Hrefs.
        keeps_of Hrefs same_heap ltac:(keeps_auto).
        assert (st3 = st) as ->.
        { destruct refs_value; try done; try by inv_ret Hrefs.
          unfold Py.iterate in Hrefs. inv_bind Hrefs as d st4 Hd.
          inv_ret Hrefs. unfold get_dict in Hd.
          destruct (heap st !! l); by simplify_eq. }
        inv_bind Hwrite as ref_metrics st3 Hresolve.
        apply resolve_all_inr in Hresolve as [-> Hinsts]; [|done].
        apply setitem_metrics_overwrites in Hwrite as [Hover Hget];
          [|by rewrite Hhas|done].
        split; [done|]. intros kw' Hkw' _. rewrite Hkw in Hkw'.
        simpl in Hkw'. simplify_eq. exists (VList ref_metrics).
        split; [done|]. by eexists.
      + inv_ret Hwrite. split; [reflexivity|].
        intros kw' Hkw' Hhas'. rewrite Hkw in Hkw'. simpl in Hkw'.
        simplify_eq. rewrite Hhas in Hhas'. done.
    - inv_ret Hwrite. split; [reflexivity|].
      intros kw Hkw _. apply getitem_contains in Hkw.
      rewrite Hb in Hkw. done. }
  split_and!.
  - etrans; [done|]. by apply same_heap_overwrites_metrics.
  - by apply registry_of_instances_register.
  - intros kw Hkw Hhas. destruct (Hres kw Hkw Hhas) as (x & Hx & Hinst).
    exists x. split; [|done]. rewrite <- Hx.
    apply getitem_touches with (K := []); [apply not_elem_of_nil|].
    by apply same_heap_touches.
Qed.

Lemma load_callbacks_loop comet cs registry st registry' st' :
  registry_of_instances registry ->
  for_each cs registry (ContextLoader.load_callbacks_step comet) st
  = (inr registry', st') ->
  overwrites_metrics st st' /\
  registry_of_instances registry' /\
  Forall (metrics_resolved st st') cs.
Proof.
  revert registry st.
  induction cs as [|c cs IH]; intros registry st Hreg H; cbn [for_each] in H.
  - inv_ret H. split_and!; [reflexivity | done | constructor].
  - inv_bind H as registry1 st1 Hstep.
    apply load_callbacks_step_inr in Hstep as (Hover1 & Hreg1 & Hc); [|done].
    apply IH in H as (Hover2 & Hreg2 & Hcs); [|done].
    split_and!; [by etrans | done |]. constructor.
    + intros kw Hkw Hhas. destruct (Hc kw Hkw Hhas) as (x & Hx & Hinst).
      eapply metrics_instances_later; done.
    + eapply Forall_impl; [exact Hcs|]. intros c' Hc' kw Hkw Hhas.
      apply Hc'.
      * rewrite <- Hkw.
        apply getitem_touches with (K := ["metrics"]); [not_written|].
        by apply overwrites_metrics_touches.
      * rewrite <- Hhas. by apply contains_metrics_later.
Qed.

End CallbackLoop.
(** ** Names and the instances written for them *)

(** [registry] is a registry the loader held on its way to [final]:
    [final] comes from it by further registrations. *)
Definition earlier (registry final : odict) : Prop :=
  exists entries : list (string * value),
    final = fold_left (fun r entry => Registry.register r entry.1 entry.2)
              entries registry.

(** The value [x] written over the [metrics] entry [v]: a list of
    constructed instances, and, for a list [v] of names, the callbacks
    that a registry held on the way to [final] has under these names,
    one for each name and in their order. *)
Definition resolution (final : odict) (v x : value) : Prop :=
  exists insts,
    x = VList insts /\
    Forall (fun i => is_instance i = true) insts /\
    forall refs, v = VList refs ->
      exists registry,
        earlier registry final /\ Forall2 (resolves_to registry) refs insts.

(** The store after callbacks were loaded into a registry on the way to
    [final]: every dict is as it was, except that a [metrics] entry may
    have been replaced by its resolution. *)
Definition resolves_metrics (final : odict) (st st' : state) : Prop :=
  forall l,
    option_Forall2
      (fun d d' : odict =>
         (forall k, k <> "metrics" ->
                    OrderedDict.get d' k = OrderedDict.get d k) /\
         match OrderedDict.get d "metrics" with
         | None => OrderedDict.get d' "metrics" = None
         | Some v =>
             exists v', OrderedDict.get d' "metrics" = Some v' /\
                        (v' = v \/ resolution final v v')
         end)
      (heap st !! l) (heap st' !! l).





(** No instance is a name: a list of instances resolves to the empty
    list only, and only if it is empty. *)
Lemma instances_resolve_nil registry insts insts' :
  Forall (fun i => is_instance i = true) insts ->
  Forall2 (resolves_to registry) insts insts' ->
  insts = [] /\ insts' = [].
Proof.
  intros Hinsts Hres.
  destruct Hres as [|ref inst refs insts' (name & -> & _) _]; [done|].
  by apply Forall_cons in Hinsts as [? _].
Qed.

Lemma resolution_trans final v x x' :
  resolution final v x -> resolution final x x' -> resolution final v x'.
Proof.
  intros (insts & -> & Hinsts & Hv) (insts' & -> & Hinsts' & Hx).
  destruct (Hx insts eq_refl) as (registry & _ & Hres).
  destruct (instances_resolve_nil _ _ _ Hinsts Hres) as [-> ->].
  exists []. done.
Qed.


#[local] Instance resolves_metrics_preorder final :
  PreOrder (resolves_metrics final).
Proof.
  split.
  - intros st l. destruct (heap st !! l) as [d|]; constructor.
    split; [done|]. destruct (OrderedDict.get d "metrics"); eauto.
  - intros st1 st2 st3 H12 H23 l. specialize (H12 l). specialize (H23 l).
    destruct H12 as [d1 d2 [Hk12 Hm12]|];
      inversion H23 as [d2' d3 [Hk23 Hm23] E1 E2|]; simplify_eq; constructor.
    split.
    + intros k Hk. by rewrite Hk23, Hk12.
    + destruct (OrderedDict.get d1 "metrics") as [v1|].
      * destruct Hm12 as (v2 & Hv2 & Hv12). rewrite Hv2 in Hm23.
        destruct Hm23 as (v3 & Hv3 & Hv23). exists v3. split; [done|].
        destruct Hv23 as [->|Hv23]; [done|]. right.
        destruct Hv12 as [->|Hv12]; [done|]. by eapply resolution_trans.
      * by rewrite Hm12 in Hm23.
Qed.




Section MetricsResolution.
Context `{W : World}.








End MetricsResolution.


Section ProviderWrites.
Context `{W : World}.








End ProviderWrites.
(** * A worked example *)

Module Demo.

Definition classes : list (string * string * list string) :=
  [("demo.models", "Tagger", ["task"; "params"]);
   ("demo.models", "OldTagger", ["task"]);
   ("demo.data", "Corpus", ["task"; "split"; "params"; "device"]);
   ("demo.envs", "Grid", ["task"; "params"; "split"; "device"]);
   ("demo.callbacks", "Accuracy", ["comet"]);
   ("demo.callbacks", "Merger", ["metrics"])].

Fixpoint find (table : list (string * string * list string))
    (p c : string) : option (list string) :=
  match table with
  | [] => None
  | (p', c', params) :: table' =>
      if String.eqb p' p && String.eqb c' c then Some params
      else find table' p c
  end.

Definition checkpoint : value :=
  VMap [("state_dict", VStr "weights");
        ("optimizer", VStr "optimizer-state");
        ("cp-epoch", VInt 5);
        ("cp-model",
         VMap [("package", VStr "demo.models"); ("class", VStr "OldTagger")]);
        ("cp-task", VMap [("name", VStr "old-task")])].

(** The directories [os.makedirs] goes through for a path: every
    prefix that a separator ends, and the path itself. *)
Fixpoint ancestors (seen rest : string) : list string :=
  match rest with
  | EmptyString => if String.eqb seen "" then [] else [seen]
  | String c rest' =>
      (if Ascii.eqb c "/" && negb (String.eqb seen "") then [seen] else [])
      ++ ancestors (seen ++ String c "") rest'
  end.

(** A file system on which [os.makedirs] refuses the empty path and a
    path that exists, and otherwise creates the directory with its
    parents. *)
Definition demo_makedirs (p : string) (ps : gset string)
    : result unit * gset string :=
  if String.eqb p "" then (inl (FileNotFoundError p), ps)
  else if bool_decide (p ∈ ps) then (inl (FileExistsError p), ps)
  else (inr tt, list_to_set (ancestors "" p) ∪ ps).

#[export] Instance world : World := {|
  cuda_is_available := true;
  gettempdir := "/tmp";
  find_class := find classes;
  import_error p :=
    if String.eqb p "" then Some ValueError
    else if existsb (fun e => String.eqb e.1.1 p) classes then None
    else Some (ModuleNotFoundError p);
  name_of v := match v with VInst _ c _ _ => Some c | _ => None end;
  load_checkpoint_from_path p :=
    match p with
    | VStr "model.ckpt" => inr checkpoint
    | _ => inl (Exception "no such file")
    end;
  os_makedirs := demo_makedirs
|}.

(** The config, dict by dict; [with_env] adds an [env] section. *)
Definition config (with_env : bool) : odict :=
  [("name", VStr "demo"); ("cometml", VDict 2); ("task", VDict 3);
   ("model", VDict 4); ("dataset", VDict 5); ("params", VDict 7);
   ("callbacks", VList [VDict 8; VDict 9])]
  ++ (if with_env then [("env", VDict 11)] else []).

Definition store (with_env : bool) : gmap loc odict :=
  list_to_map
    [(1%positive, config with_env);
     (2%positive, [("offline", VBool true)]);
     (3%positive, [("name", VStr "tagging")]);
     (4%positive,
      [("package", VStr "demo.models"); ("class", VStr "Tagger")]);
     (5%positive,
      [("package", VStr "demo.data"); ("class", VStr "Corpus");
       ("params", VDict 6)]);
     (6%positive, [("path", VStr "corpus")]);
     (7%positive,
      [("batch_size", VInt 8); ("cpu_only", VBool true);
       ("resume", VBool true);
       ("resume_checkpoint_path", VStr "model.ckpt")]);
     (8%positive,
      [("package", VStr "demo.callbacks"); ("class", VStr "Accuracy")]);
     (9%positive,
      [("package", VStr "demo.callbacks"); ("class", VStr "Merger");
       ("kwargs", VDict 10)]);
     (10%positive, [("metrics", VList [VStr "Accuracy"])]);
     (11%positive,
      [("package", VStr "demo.envs"); ("class", VStr "Grid")])].

Definition start (with_env : bool) : state := mkState (store with_env) ∅ [].

Definition cfg : value := VDict 1.

Definition splits : list string := ["train"; "dev"].


(** The result of a run that is known to succeed. *)
Definition value_of {A} (default : A) (run : result A * state) : A :=
  match run.1 with
  | inr a => a
  | inl _ => default
  end.

Definition comet : value :=
  VInst "comet_ml" "OfflineExperiment" []
    [("workspace", VNone); ("project_name", VNone);
     ("offline_directory", VStr "/tmp/cometml")].

Definition experiment (with_env : bool) : result ExperimentContext.t * state :=
  ExperimentContext.from_config cfg splits (start with_env).

Definition experiment_context (with_env : bool) : ExperimentContext.t :=
  value_of (ExperimentContext.mk []) (experiment with_env).

Definition providers : result value * state :=
  ContextLoader.load_providers_from_config cfg splits (torch_device "cpu")
    (start false).

Definition training : result TrainingContext.t * state :=
  TrainingContext.from_config cfg splits (start true).

(** A config without callbacks. *)
Definition bare : state :=
  mkState {[ 1%positive := [("name", VStr "bare")] ]} ∅ [].

Definition accuracy : value := VInst "demo.callbacks" "Accuracy" [comet] [].

Lemma merged_holder_witness :
  OrderedDict.get
    (PredictionContext.holder
       (PredictionContext.init
          (ExperimentContext.mk [("model", VStr "embedded")]) (VStr "own")))
    "model"
  = Some (VStr "embedded").
Proof.
  assert (Hnd : NoDup (OrderedDict.keys [("model", VStr "embedded")])).
  { simpl. apply NoDup_singleton. }
  destruct (merged_holder_reads_embedded_first
              (ExperimentContext.mk [("model", VStr "embedded")]) "model"
              (VStr "own") VNone VNone VNone VNone VNone Hnd)
    as (_ & Hprediction & _).
  exact Hprediction.
Defined.

Lemma device_witness :
  ContextLoader.load_device_from_config cfg (start false)
  = (inr (torch_device "cpu"), start false).
Proof.
  apply (device_follows_cpu_only (start false) 1 7 (config false)
           [("batch_size", VInt 8); ("cpu_only", VBool true);
            ("resume", VBool true);
            ("resume_checkpoint_path", VStr "model.ckpt")]
           (Some true)); reflexivity.
Defined.

Lemma default_callback_witness :
  ContextLoader.load_callbacks_from_config cfg comet bare
  = (inr (VRegistry "CallbackRegistry"
            [("AverageLossMetric", AverageLossMetric comet)]), bare).
Proof.
  apply (default_callback_is_registered cfg comet bare "AverageLossMetric");
    reflexivity.
Defined.

Lemma shuffle_witness :
  exists (has_env : bool) dataset batch_size (shuffle : bool),
    Py.contains "env" cfg (start false) = (inr has_env, start false) /\
    value_of VNone (Py.getitem (value_of VNone providers) "train" providers.2)
    = ContextLoader.DataLoader dataset batch_size shuffle /\
    (shuffle = true <-> "train" = "train" /\ has_env = false).
Proof.
  apply (shuffle_iff_train_and_no_env cfg splits (torch_device "cpu")
           (start false) (value_of VNone providers) providers.2 "train");
    vm_compute; reflexivity.
Defined.

Lemma experiment_context_keys_witness :
  OrderedDict.keys (ExperimentContext.holder (experiment_context false))
  = ["config"; "comet"; "device"; "providers"; "callbacks"] /\
  exists providers,
    OrderedDict.get (ExperimentContext.holder (experiment_context false))
      "providers"
    = Some (VMap providers) /\
    NoDup (OrderedDict.keys providers) /\
    (forall s, s ∈ OrderedDict.keys providers <-> s ∈ splits).
Proof.
  apply (experiment_context_keys cfg splits (start false)
           (experiment_context false) (experiment false).2).
  vm_compute. reflexivity.
Defined.

Lemma prediction_witness :
  OrderedDict.get
    (PredictionContext.holder
       (value_of (PredictionContext.mk [])
          (PredictionContext.from_config cfg splits (VStr "model.ckpt")
             (start true))))
    "model"
  = Some (VInst "demo.models" "OldTagger" [VMap [("name", VStr "old-task")]]
            []).
Proof.
  assert (Hexperiment :
            ExperimentContext.from_config cfg splits (start true)
            = (inr (experiment_context true), (experiment true).2))
    by (vm_compute; reflexivity).
  destruct (prediction_model_comes_from_checkpoint cfg splits
              (VStr "model.ckpt") (start true) (experiment_context true)
              (experiment true).2
              [("state_dict", VStr "weights");
               ("optimizer", VStr "optimizer-state");
               ("cp-epoch", VInt 5);
               ("cp-model",
                VMap [("package", VStr "demo.models");
                      ("class", VStr "OldTagger")]);
               ("cp-task", VMap [("name", VStr "old-task")])]
              [("package", VStr "demo.models"); ("class", VStr "OldTagger")]
              "demo.models" "OldTagger" ["task"]
              (VMap [("name", VStr "old-task")]) (VStr "weights")
              eq_refl Hexperiment eq_refl eq_refl eq_refl eq_refl eq_refl
              eq_refl eq_refl)
    as (c & d & _ & _ & Hrun & Hmodel).
  unfold value_of. rewrite Hrun. exact Hmodel.
Defined.

Lemma training_witness :
  OrderedDict.get
    (TrainingContext.holder (value_of (TrainingContext.mk []) training))
    "epoch_start"
  = Some (VInt 6).
Proof.
  apply (training_starts_after_checkpoint_epoch 1 7 (config true)
           [("batch_size", VInt 8); ("cpu_only", VBool true);
            ("resume", VBool true);
            ("resume_checkpoint_path", VStr "model.ckpt")]
           splits (start true) (value_of (TrainingContext.mk []) training)
           training.2 (Some true) 5); try reflexivity.
  intros _. eexists (VStr "model.ckpt"), _. split_and!; reflexivity.
Defined.

Lemma metrics_witness :
  ContextLoader.load_callbacks_from_config cfg comet (start false)
  = (inr (VRegistry "CallbackRegistry"
            [("Accuracy", accuracy);
             ("Merger",
              VInst "demo.callbacks" "Merger" []
                [("metrics", VList [accuracy])])]),
     mkState (<[10%positive := [("metrics", VList [accuracy])]]>
                (store false)) ∅ []) /\
  OrderedDict.get [("metrics", VList [accuracy])] "metrics"
  = Some (VList [accuracy]).
Proof.
  apply (metrics_names_become_instances comet (start false) 1 9 10
           (config false)
           [("package", VStr "demo.callbacks"); ("class", VStr "Merger");
            ("kwargs", VDict 10)]
           [("metrics", VList [VStr "Accuracy"])]
           (VDict 8) accuracy "Accuracy" "Merger" "demo.callbacks" "Merger"
           ["metrics"] (start false)); reflexivity.
Defined.


End Demo.

(** * Further properties of the module *)

(** ** Loaders that leave the state alone *)

(** The state is the one the run started in. *)
Definition unchanged (st st' : state) : Prop := st' = st.

#[local] Instance unchanged_preorder : PreOrder unchanged.
Proof.
  split; [by intros st|].
  intros st1 st2 st3. unfold unchanged. congruence.
Qed.

Section Purity.
Context `{W : World}.

Lemma get_dict_unchanged l : keeps unchanged (get_dict l).
Proof. intros st. apply get_dict_state. Qed.

Lemma path_exists_unchanged p : keeps unchanged (Py.path_exists p).
Proof. intros st. by destruct p. Qed.

Hint Resolve get_dict_unchanged path_exists_unchanged : keeps_db.

Lemma lookup_unchanged d k : keeps unchanged (Py.lookup d k).
Proof. unfold Py.lookup. keeps_auto. Qed.
Hint Resolve lookup_unchanged : keeps_db.

Lemma contains_unchanged k v : keeps unchanged (Py.contains k v).
Proof. unfold Py.contains. keeps_auto. Qed.

Lemma getitem_unchanged v k : keeps unchanged (Py.getitem v k).
Proof. unfold Py.getitem. keeps_auto. Qed.

Lemma iterate_unchanged v : keeps unchanged (Py.iterate v).
Proof. unfold Py.iterate. keeps_auto. Qed.

Lemma truthy_unchanged v : keeps unchanged (Py.truthy v).
Proof. unfold Py.truthy. keeps_auto. Qed.

Lemma as_str_unchanged v : keeps unchanged (Py.as_str v).
Proof. unfold Py.as_str. keeps_auto. Qed.

Lemma unpack_unchanged v : keeps unchanged (Py.unpack v).
Proof. unfold Py.unpack. keeps_auto. Qed.

Hint Resolve contains_unchanged getitem_unchanged iterate_unchanged
  truthy_unchanged as_str_unchanged unpack_unchanged : keeps_db.

Lemma import_class_unchanged p c :
  keeps unchanged (ContextLoader.import_class p c).
Proof. unfold ContextLoader.import_class. keeps_auto. Qed.
Hint Resolve import_class_unchanged : keeps_db.

Lemma load_device_from_config_unchanged c :
  keeps unchanged (ContextLoader.load_device_from_config c).
Proof.
  unfold ContextLoader.load_device_from_config, ContextLoader.load_device.
  keeps_auto.
Qed.

Lemma load_step_fn_unchanged c : keeps unchanged (ContextLoader.load_step_fn c).
Proof.
  unfold ContextLoader.load_step_fn,
    ContextLoader.load_step_config_dynamically.
  keeps_auto.
Qed.

Lemma load_loss_fn_unchanged c : keeps unchanged (ContextLoader.load_loss_fn c).
Proof.
  unfold ContextLoader.load_loss_fn, ContextLoader.load_loss_fn_dynamically.
  keeps_auto.
Qed.

Lemma load_callback_unchanged c comet :
  keeps unchanged (ContextLoader.load_callback c comet).
Proof.
  unfold ContextLoader.load_callback,
    ContextLoader.load_callback_dynamically.
  keeps_auto.
Qed.

Lemma load_saver_unchanged c m t :
  keeps unchanged (ContextLoader.load_saver c m t).
Proof.
  unfold ContextLoader.load_saver, ContextLoader.load_saver_dynamically.
  keeps_auto.
Qed.
Hint Resolve load_saver_unchanged : keeps_db.

Lemma load_savers_from_config_unchanged c :
  keeps unchanged (ContextLoader.load_savers_from_config c).
Proof.
  unfold ContextLoader.load_savers_from_config,
    ContextLoader.load_savers_step, ContextLoader.register_by_name.
  keeps_auto.
Qed.

Lemma load_model_from_config_unchanged c t :
  keeps unchanged (ContextLoader.load_model_from_config c t).
Proof.
  unfold ContextLoader.load_model_from_config,
    ContextLoader.load_model_dynamically.
  keeps_auto.
Qed.

Lemma load_env_from_config_unchanged c t s d :
  keeps unchanged (ContextLoader.load_env_from_config c t s d).
Proof.
  unfold ContextLoader.load_env_from_config,
    ContextLoader.load_env_dynamically.
  keeps_auto.
Qed.

Lemma load_dataset_from_config_unchanged c t s d :
  keeps unchanged (ContextLoader.load_dataset_from_config c t s d).
Proof.
  unfold ContextLoader.load_dataset_from_config,
    ContextLoader.load_dataset_dynamically.
  keeps_auto.
Qed.

(** X1.  The loaders of a single component read the config and nothing
    else: whether they return or raise, the store, the file system and
    the trace of calls are as they were. *)
Theorem component_loaders_leave_state (c t s d comet : value) (st : state) :
  (ContextLoader.load_device_from_config c st).2 = st /\
  (ContextLoader.load_model_from_config c t st).2 = st /\
  (ContextLoader.load_dataset_from_config c t s d st).2 = st /\
  (ContextLoader.load_env_from_config c t s d st).2 = st /\
  (ContextLoader.load_loss_fn c st).2 = st /\
  (ContextLoader.load_step_fn c st).2 = st /\
  (ContextLoader.load_callback c comet st).2 = st /\
  (ContextLoader.load_savers_from_config c st).2 = st.
Proof.
  split_and!.
  - apply load_device_from_config_unchanged.
  - apply load_model_from_config_unchanged.
  - apply load_dataset_from_config_unchanged.
  - apply load_env_from_config_unchanged.
  - apply load_loss_fn_unchanged.
  - apply load_step_fn_unchanged.
  - apply load_callback_unchanged.
  - apply load_savers_from_config_unchanged.
Qed.

End Purity.

(** ** Batches *)

(** X2.  [collate_variable_sequences] splits a batch into the sequence
    of its inputs and the sequence of its labels, both as long as the
    batch and in its order: pairing them up again gives the batch. *)
Theorem collate_keeps_the_batch {A B} (batch : list (A * B)) :
  let xy := collate_variable_sequences batch in
  length xy.1 = length batch /\
  length xy.2 = length batch /\
  zip xy.1 xy.2 = batch.
Proof.
  unfold collate_variable_sequences. simpl.
  rewrite !length_map. split_and!; [done..|].
  induction batch as [|[a b] batch IH]; simpl; [done|]. by rewrite IH.
Qed.

(** ** Errors *)

Section Errors.
Context `{W : World}.

Lemma getitem_dict_missing l d k st :
  heap st !! l = Some d -> OrderedDict.get d k = None ->
  Py.getitem (VDict l) k st = (inl (KeyError (VStr k)), st).
Proof.
  intros Hl Hk. unfold Py.getitem, Py.lookup, bind, get_dict.
  by rewrite Hl, Hk.
Qed.

(** An optional key: [v = d[k] if k in d else default]. *)
Lemma optional_key_run l d k default st :
  heap st !! l = Some d ->
  (if OrderedDict.mem d k then Py.getitem (VDict l) k else ret default) st
  = (inr match OrderedDict.get d k with Some v => v | None => default end,
     st).
Proof.
  intros Hl. unfold OrderedDict.mem.
  destruct (OrderedDict.get d k) as [v|] eqn:Hk; [|done].
  by apply getitem_dict_run with (d := d).
Qed.

(** X3.  A config without the [cometml] section is refused by every
    context factory with [KeyError: 'cometml'], before anything is
    constructed, logged or written. *)
Theorem missing_cometml_section_raises (lc : loc) (dc : odict)
    (split_names : list string) (model_path : value) st :
  heap st !! lc = Some dc ->
  OrderedDict.get dc "cometml" = None ->
  Py.is_none model_path = false ->
  ExperimentContext.from_config (VDict lc) split_names st
  = (inl (KeyError (VStr "cometml")), st) /\
  TrainingContext.from_config (VDict lc) split_names st
  = (inl (KeyError (VStr "cometml")), st) /\
  PredictionContext.from_config (VDict lc) split_names model_path st
  = (inl (KeyError (VStr "cometml")), st) /\
  ProcessorContext.from_config (VDict lc) split_names st
  = (inl (KeyError (VStr "cometml")), st).
Proof.
  intros Hlc Hmissing Hpath.
  assert (Hexp : ExperimentContext.from_config (VDict lc) split_names st
                 = (inl (KeyError (VStr "cometml")), st)).
  { unfold ExperimentContext.from_config. apply bind_fail.
    by apply getitem_dict_missing with (d := dc). }
  split_and!; [done| | |].
  - unfold TrainingContext.from_config. by apply bind_fail.
  - unfold PredictionContext.from_config. rewrite Hpath. by apply bind_fail.
  - unfold ProcessorContext.from_config. by apply bind_fail.
Qed.

(** X4.  Online tracking without an API key: when [offline] is false
    and the tracking config has no [api_key], loading the tracking
    client raises [KeyError: 'api_key'] and nothing has happened. *)
Theorem online_tracking_needs_api_key (l : loc) (d : odict)
    (experiment_name : value) st :
  heap st !! l = Some d ->
  OrderedDict.get d "offline" = Some (VBool false) ->
  OrderedDict.get d "api_key" = None ->
  ContextLoader.load_cometml_experiment (VDict l) experiment_name st
  = (inl (KeyError (VStr "api_key")), st).
Proof.
  intros Hl Hoffline Hkey.
  unfold ContextLoader.load_cometml_experiment. cbv zeta.
  run_with (contains_dict_run l d "workspace" st Hl).
  run_with (optional_key_run l d "workspace" VNone st Hl).
  run_with (contains_dict_run l d "project_name" st Hl).
  run_with (optional_key_run l d "project_name" VNone st Hl).
  run_with (getitem_dict_run l d "offline" (VBool false) st Hl Hoffline).
  run_with (eq_refl : Py.truthy (VBool false) st = (inr false, st)).
  cbv iota. rewrite ?bind_assoc. apply bind_fail.
  by apply getitem_dict_missing with (d := d).
Qed.

End Errors.

(** ** Offline tracking and forward references *)

Section Tracking.
Context `{W : World}.

(** The directory offline tracking writes to: the configured one, or
    [cometml] under the temporary directory when none is configured. *)
Definition offline_directory_of (d : odict) : option string :=
  match OrderedDict.get d "offline_directory" with
  | None | Some VNone => Some (Py.path_join gettempdir "cometml")
  | Some (VStr dir) => Some dir
  | Some _ => None
  end.

(** X5.  Offline tracking looks for its directory and has it made only
    if it is not there.  A directory that exists leaves the file system
    as it was.  One that does not is handed to [os.makedirs], once: if
    that call returns, the file system is as the call left it, and if it
    raises, its error is passed on with nothing logged and the client
    not named.  Where the loader returns, the client is constructed for
    that directory, with the workspace and the project of the config,
    and named after the experiment. *)
Theorem offline_directory_is_created_once (l : loc) (d : odict)
    (experiment_name : value) (dir : string) st :
  heap st !! l = Some d ->
  OrderedDict.get d "offline" = Some (VBool true) ->
  offline_directory_of d = Some dir ->
  let experiment :=
    VInst "comet_ml" "OfflineExperiment" []
      [("workspace", default VNone (OrderedDict.get d "workspace"));
       ("project_name", default VNone (OrderedDict.get d "project_name"));
       ("offline_directory", VStr dir)] in
  let events :=
    [ELogInfo "Writing CometML experiments to %s" [VStr dir];
     ECall experiment "set_name" [experiment_name] []] in
  (dir ∈ paths st ->
   ContextLoader.load_cometml_experiment (VDict l) experiment_name st
   = (inr experiment,
      mkState (heap st) (paths st) (trace st ++ events))) /\
  (forall created,
      dir ∉ paths st ->
      os_makedirs dir (paths st) = (inr tt, created) ->
      ContextLoader.load_cometml_experiment (VDict l) experiment_name st
      = (inr experiment,
         mkState (heap st) created (trace st ++ events))) /\
  (forall e created,
      dir ∉ paths st ->
      os_makedirs dir (paths st) = (inl e, created) ->
      ContextLoader.load_cometml_experiment (VDict l) experiment_name st
      = (inl e, mkState (heap st) created (trace st))).
Proof.
  intros Hl Hoffline Hdir experiment events.
  assert (Hrun :
    ContextLoader.load_cometml_experiment (VDict l) experiment_name st
    = ((if bool_decide (dir ∈ paths st) then ret tt
        else Py.makedirs (VStr dir)) ;;;
       emit (ELogInfo "Writing CometML experiments to %s" [VStr dir]) ;;;
       Py.call experiment "set_name" [experiment_name] [] ;;;
       ret experiment) st).
  { unfold ContextLoader.load_cometml_experiment. cbv zeta.
    run_with (contains_dict_run l d "workspace" st Hl).
    run_with (optional_key_run l d "workspace" VNone st Hl).
    run_with (contains_dict_run l d "project_name" st Hl).
    run_with (optional_key_run l d "project_name" VNone st Hl).
    run_with (getitem_dict_run l d "offline" (VBool true) st Hl Hoffline).
    run_with (eq_refl : Py.truthy (VBool true) st = (inr true, st)).
    cbv iota.
    run_with (contains_dict_run l d "offline_directory" st Hl).
    run_with (optional_key_run l d "offline_directory" VNone st Hl).
    assert ((if Py.is_none
                  match OrderedDict.get d "offline_directory" with
                  | Some v => v
                  | None => VNone
                  end
             then VStr (Py.path_join gettempdir "cometml")
             else match OrderedDict.get d "offline_directory" with
                  | Some v => v
                  | None => VNone
                  end) = VStr dir) as ->.
    { unfold offline_directory_of in Hdir.
      destruct (OrderedDict.get d "offline_directory") as [[]|];
        simpl; by simplify_eq. }
    run_with (eq_refl : Py.path_exists (VStr dir) st
                        = (inr (bool_decide (dir ∈ paths st)), st)).
    rewrite ?bind_assoc. reflexivity. }
  rewrite Hrun. clear Hrun. split_and!.
  - intros Hthere. rewrite bool_decide_eq_true_2 by done.
    unfold bind, ret, Py.call, emit. simpl. by rewrite <- app_assoc.
  - intros created Hmissing Hmade. rewrite bool_decide_eq_false_2 by done.
    unfold bind at 1, Py.makedirs. rewrite Hmade.
    unfold bind, ret, Py.call, emit. simpl. by rewrite <- app_assoc.
  - intros e created Hmissing Hfailed. rewrite bool_decide_eq_false_2 by done.
    unfold bind at 1, Py.makedirs. by rewrite Hfailed.
Qed.

(** X6.  A callback that names, under [metrics], a callback that is not
    registered yet makes the loader raise [KeyError] with that name;
    the config has not been written to. *)
Theorem unregistered_metric_raises comet st (lc lb lk : loc)
    (dc db dk : odict) (rest refs : list value) (name : string) :
  heap st !! lc = Some dc ->
  OrderedDict.get dc "callbacks" = Some (VList (VDict lb :: rest)) ->
  heap st !! lb = Some db ->
  OrderedDict.get db "kwargs" = Some (VDict lk) ->
  heap st !! lk = Some dk ->
  OrderedDict.get dk "metrics" = Some (VList (VStr name :: refs)) ->
  ContextLoader.load_callbacks_from_config (VDict lc) comet st
  = (inl (KeyError (VStr name)), st).
Proof.
  intros Hlc Hcallbacks Hlb Hkw Hlk Hmetrics.
  unfold ContextLoader.load_callbacks_from_config. cbv zeta.
  run_with (contains_dict_run lc dc "callbacks" st Hlc).
  unfold OrderedDict.mem. rewrite Hcallbacks. cbv beta iota.
  run_with (getitem_dict_run lc dc "callbacks" _ st Hlc Hcallbacks).
  run_with (eq_refl : Py.iterate (VList (VDict lb :: rest)) st
                      = (inr (VDict lb :: rest), st)).
  cbn [for_each]. rewrite ?bind_assoc.
  unfold ContextLoader.load_callbacks_step at 1.
  run_with (contains_dict_run lb db "kwargs" st Hlb).
  unfold OrderedDict.mem at 1. rewrite Hkw. cbv beta iota.
  run_with (getitem_dict_run lb db "kwargs" _ st Hlb Hkw).
  run_with (contains_dict_run lk dk "metrics" st Hlk).
  unfold OrderedDict.mem at 1. rewrite Hmetrics. cbv beta iota.
  run_with (getitem_dict_run lk dk "metrics" _ st Hlk Hmetrics).
  run_with (eq_refl : Py.iterate (VList (VStr name :: refs)) st
                      = (inr (VStr name :: refs), st)).
  rewrite ?bind_assoc. apply bind_fail.
  cbn [map_m]. apply bind_fail. reflexivity.
Qed.

End Tracking.

(** ** Logging *)

Section Logging.
Context `{W : World}.

Lemma od_elem_get (d : odict) k v :
  NoDup (OrderedDict.keys d) -> (k, v) ∈ d -> OrderedDict.get d k = Some v.
Proof.
  induction d as [|[k' v'] d IH]; simpl; [by intros _ ?%elem_of_nil|].
  intros [Hk' Hnd]%NoDup_cons [[= -> ->]|Hin]%elem_of_cons.
  - by rewrite String.eqb_refl.
  - destruct (String.eqb k' k) eqn:E; [|by apply IH].
    apply String.eqb_eq in E as ->. exfalso. apply Hk'.
    apply list_elem_of_fmap. by exists (k, v).
Qed.

Lemma checkpoint_events_of_entries comet (ck entries : odict) :
  (forall k v, (k, v) ∈ entries -> OrderedDict.get ck k = Some v) ->
  flat_map (checkpoint_event comet ck) (OrderedDict.keys entries)
  = map (fun entry => ECall comet "log_other" [VStr entry.1; entry.2] [])
      (List.filter (fun entry => Py.startswith entry.1 "cp-") entries).
Proof.
  induction entries as [|[k v] entries IH]; intros Hget; [done|].
  cbn [OrderedDict.keys map flat_map List.filter fst snd].
  fold (OrderedDict.keys entries). rewrite IH.
  - unfold checkpoint_event. rewrite (Hget k v) by apply list_elem_of_here.
    by destruct (Py.startswith k "cp-").
  - intros k' v' Hin. apply Hget. by apply list_elem_of_further.
Qed.

(** X7.  [log_checkpoint] sends the tracking client exactly the entries
    of the checkpoint whose names start with [cp-]: what it adds to the
    trace is the list [checkpoint_events], which for a checkpoint with
    distinct names is one [log_other] call for each such entry, with
    its name and its value, in the order of the checkpoint, and no
    other call; it changes neither the store nor the file system. *)
Theorem log_checkpoint_logs_cp_entries comet (ck : odict) st :
  is_instance comet = true ->
  log_checkpoint comet (VMap ck) st
  = (inr tt,
     mkState (heap st) (paths st) (trace st ++ checkpoint_events comet ck)) /\
  (NoDup (OrderedDict.keys ck) ->
   checkpoint_events comet ck
   = map (fun entry => ECall comet "log_other" [VStr entry.1; entry.2] [])
       (List.filter (fun entry => Py.startswith entry.1 "cp-") ck)).
Proof.
  intros Hcomet. split; [by apply log_checkpoint_by_value|].
  intros Hnd. apply checkpoint_events_of_entries.
  intros k v. by apply od_elem_get.
Qed.

Lemma append_inj_r (p a b : string) : (p ++ a = p ++ b)%string -> a = b.
Proof. induction p as [|c p IH]; simpl; [done|]. intros [= E]. auto. Qed.

Lemma od_set_fresh (d : odict) k v :
  k ∉ OrderedDict.keys d -> OrderedDict.set d k v = (d ++ [(k, v)])%list.
Proof.
  induction d as [|[k' v'] d IH]; simpl; [done|].
  rewrite not_elem_of_cons. intros [Hne Hk].
  destruct (String.eqb k' k) eqn:E.
  - apply String.eqb_eq in E. congruence.
  - by rewrite IH.
Qed.

Lemma prefix_fold (prefix : string) (d acc : odict) :
  NoDup (OrderedDict.keys d) ->
  (forall k, k ∈ OrderedDict.keys d ->
             (prefix ++ "-" ++ k)%string ∉ OrderedDict.keys acc) ->
  fold_left
    (fun acc kv =>
       OrderedDict.set acc (prefix ++ "-" ++ fst kv)%string (snd kv))
    d acc
  = (acc ++ map (fun kv => ((prefix ++ "-" ++ fst kv)%string, snd kv)) d)%list.
Proof.
  revert acc. induction d as [|[k v] d IH]; intros acc Hnd Hfresh; simpl.
  - by rewrite app_nil_r.
  - simpl in Hnd. apply NoDup_cons in Hnd as [Hk Hnd].
    rewrite od_set_fresh by (apply Hfresh; simpl; apply list_elem_of_here).
    rewrite IH; [by rewrite <- app_assoc | done |].
    intros k' Hk'. unfold OrderedDict.keys. rewrite map_app. simpl.
    rewrite elem_of_app, list_elem_of_singleton. intros [Hin|Heq].
    + apply (Hfresh k'); [simpl; by apply list_elem_of_further | done].
    + apply append_inj_r, append_inj_r in Heq. by subst.
Qed.

(** X8.  [apply_prefix] renames every parameter to [prefix-name] and
    keeps its value and the order of the parameters. *)
Theorem apply_prefix_renames_parameters (d : odict) (prefix : string) st :
  NoDup (OrderedDict.keys d) ->
  apply_prefix (VMap d) prefix st
  = (inr (VMap (map (fun kv => ((prefix ++ "-" ++ fst kv)%string, snd kv)) d)),
     st).
Proof.
  intros Hnd. unfold apply_prefix, Py.items, bind, ret.
  rewrite prefix_fold; [done | done |].
  intros k _. apply not_elem_of_nil.
Qed.

End Logging.

(** ** The registries *)

Section Registries.
Context `{W : World}.

(** Every entry is registered under the name of its instance. *)
Definition registered_by_name (registry : odict) : Prop :=
  forall name v, OrderedDict.get registry name = Some v ->
                 name_of v = Some name.

Lemma registered_by_name_register registry name v :
  registered_by_name registry -> name_of v = Some name ->
  registered_by_name (Registry.register registry name v).
Proof.
  intros Hreg Hname name' v'. unfold Registry.register.
  rewrite od_get_set. destruct (String.eqb name name') eqn:E.
  - apply String.eqb_eq in E as <-. by intros [= <-].
  - apply Hreg.
Qed.

Lemma register_by_name_named registry v st registry' st' :
  ContextLoader.register_by_name registry v st = (inr registry', st') ->
  exists name,
    name_of v = Some name /\ registry' = Registry.register registry name v /\
    st' = st.
Proof.
  unfold ContextLoader.register_by_name.
  destruct (name_of v) as [name|]; [|done]. intros H. inv_ret H. eauto.
Qed.

Lemma load_callbacks_step_named comet c registry st registry' st' :
  ContextLoader.load_callbacks_step comet c registry st
  = (inr registry', st') ->
  exists name clb,
    name_of clb = Some name /\
    registry' = Registry.register registry name clb.
Proof.
  intros H. unfold ContextLoader.load_callbacks_step in H.
  inv_bind H as b st0 Hb. inv_bind H as u st1 Hwrite.
  inv_bind H as clb st2 Hclb.
  apply register_by_name_named in H as (name & Hname & -> & _). eauto.
Qed.

Lemma load_callbacks_loop_named comet cs registry st registry' st' :
  for_each cs registry (ContextLoader.load_callbacks_step comet) st
  = (inr registry', st') ->
  registered_by_name registry -> NoDup (OrderedDict.keys registry) ->
  registered_by_name registry' /\ NoDup (OrderedDict.keys registry').
Proof.
  revert registry st.
  induction cs as [|c cs IH]; intros registry st H Hreg Hnd;
    cbn [for_each] in H.
  - inv_ret H. done.
  - inv_bind H as registry1 st1 Hstep.
    apply load_callbacks_step_named in Hstep as (name & clb & Hname & ->).
    eapply IH; [exact H| |].
    + by apply registered_by_name_register.
    + by apply od_NoDup_keys_set.
Qed.

(** X9.  The callback registry that [load_callbacks_from_config] returns
    holds constructed instances only, each under the name the instance
    itself carries, and no name twice. *)
Theorem callbacks_are_registered_by_name cfg comet st result st' :
  ContextLoader.load_callbacks_from_config cfg comet st = (inr result, st') ->
  exists registry,
    result = VRegistry "CallbackRegistry" registry /\
    NoDup (OrderedDict.keys registry) /\
    forall name clb,
      OrderedDict.get registry name = Some clb ->
      name_of clb = Some name /\ is_instance clb = true.
Proof.
  intros H. unfold ContextLoader.load_callbacks_from_config in H.
  inv_bind H as b st0 Hb. inv_bind H as registry st1 Hloop. inv_ret H.
  exists registry. split; [done|].
  assert (registered_by_name registry /\ NoDup (OrderedDict.keys registry)
          /\ registry_of_instances registry) as (Hnamed & Hnd & Hinst).
  { destruct b.
    - inv_bind Hloop as v st2 Hv. inv_bind Hloop as cs st3 Hcs.
      pose proof Hloop as Hloop'.
      apply load_callbacks_loop_named in Hloop as [Hnamed Hnd];
        [|done|apply NoDup_nil_2].
      apply load_callbacks_loop in Hloop' as (_ & Hinst & _);
        [done|by constructor].
    - apply register_by_name_named in Hloop as (name & Hname & -> & _).
      split_and!.
      + apply registered_by_name_register; done.
      + apply od_NoDup_keys_set, NoDup_nil_2.
      + apply registry_of_instances_register; [by constructor|done]. }
  split; [done|]. intros name clb Hget. split; [by apply Hnamed|].
  apply od_get_Some_elem in Hget.
  unfold registry_of_instances in Hinst. rewrite Forall_forall in Hinst.
  apply (Hinst _ Hget).
Qed.

(** What a saver is constructed with: the [model] and [task] sections
    of the config, before its own keyword arguments. *)
Definition saver_of (cfg : value) (st : state) (svr : value) : Prop :=
  exists p c kw model_config task_config,
    svr = VInst p c [model_config; task_config] kw /\
    Py.getitem cfg "model" st = (inr model_config, st) /\
    Py.getitem cfg "task" st = (inr task_config, st).

Lemma load_saver_inr c m t st svr st' :
  ContextLoader.load_saver c m t st = (inr svr, st') ->
  exists p c' kw, svr = VInst p c' [m; t] kw.
Proof.
  unfold ContextLoader.load_saver, ContextLoader.load_saver_dynamically, new.
  intros H. inv_run; eauto.
Qed.

Lemma load_savers_step_inr cfg c registry st registry' st' :
  ContextLoader.load_savers_step cfg c registry st = (inr registry', st') ->
  st' = st /\
  exists name svr,
    name_of svr = Some name /\ saver_of cfg st svr /\
    registry' = Registry.register registry name svr.
Proof.
  intros H. unfold ContextLoader.load_savers_step in H.
  inv_bind H as m st0 Hm. pose proof (getitem_inr _ _ _ _ _ Hm) as ->.
  inv_bind H as t st0 Ht. pose proof (getitem_inr _ _ _ _ _ Ht) as ->.
  inv_bind H as svr st1 Hsvr.
  pose proof (load_saver_unchanged c m t st) as Hst. rewrite Hsvr in Hst.
  simpl in Hst. unfold unchanged in Hst. subst st1.
  apply load_saver_inr in Hsvr as (p & c' & kw & ->).
  apply register_by_name_named in H as (name & Hname & -> & ->).
  split; [done|]. eexists name, _. split_and!; [done| |done].
  by eexists p, c', kw, m, t.
Qed.

Lemma load_savers_loop cfg cs registry st registry' st' :
  for_each cs registry (ContextLoader.load_savers_step cfg) st
  = (inr registry', st') ->
  registered_by_name registry ->
  NoDup (OrderedDict.keys registry) ->
  (forall name svr, OrderedDict.get registry name = Some svr ->
                    saver_of cfg st svr) ->
  st' = st /\ registered_by_name registry' /\
  NoDup (OrderedDict.keys registry') /\
  (forall name svr, OrderedDict.get registry' name = Some svr ->
                    saver_of cfg st svr).
Proof.
  revert registry.
  induction cs as [|c cs IH]; intros registry H Hnamed Hnd Hsavers;
    cbn [for_each] in H.
  - inv_ret H. done.
  - inv_bind H as registry1 st1 Hstep.
    apply load_savers_step_inr in Hstep
      as (-> & name & svr & Hname & Hsvr & ->).
    eapply IH; [exact H| | |].
    + by apply registered_by_name_register.
    + by apply od_NoDup_keys_set.
    + intros name' svr'. unfold Registry.register. rewrite od_get_set.
      destruct (String.eqb name name'); [by intros [= <-]|apply Hsavers].
Qed.

(** X10.  Every saver that [load_savers_from_config] registers was
    constructed with the [model] and the [task] section of the config as
    its first two arguments and is registered under its own name; a
    config without a [savers] entry gives an empty registry.  Loading
    the savers changes nothing in the state. *)
Theorem savers_get_model_and_task cfg st result st' :
  ContextLoader.load_savers_from_config cfg st = (inr result, st') ->
  st' = st /\
  exists savers,
    result = VRegistry "SaverRegistry" savers /\
    NoDup (OrderedDict.keys savers) /\
    (forall name svr,
        OrderedDict.get savers name = Some svr ->
        name_of svr = Some name /\ saver_of cfg st svr) /\
    (Py.contains "savers" cfg st = (inr false, st) -> savers = []).
Proof.
  intros H. unfold ContextLoader.load_savers_from_config in H.
  inv_bind H as b st0 Hb. pose proof (contains_inr _ _ _ _ _ Hb) as ->.
  inv_bind H as savers st1 Hloop. inv_ret H.
  destruct b.
  - inv_bind Hloop as v st2 Hv. pose proof (getitem_inr _ _ _ _ _ Hv) as ->.
    inv_bind Hloop as cs st2 Hcs.
    pose proof (iterate_unchanged v st) as Hst. rewrite Hcs in Hst.
    simpl in Hst. unfold unchanged in Hst. subst st2.
    apply load_savers_loop in Hloop as (-> & Hnamed & Hnd & Hsavers);
      [|done|apply NoDup_nil_2|done].
    split; [done|]. exists savers. split_and!; [done|done| |].
    + intros name svr Hget. split; [by apply Hnamed|by eapply Hsavers].
    + intros Hno. rewrite Hb in Hno. done.
  - inv_ret Hloop. split; [done|]. exists []. split_and!; try done.
    apply NoDup_nil_2.
Qed.

End Registries.

#[export] Hint Resolve get_dict_unchanged path_exists_unchanged
  lookup_unchanged contains_unchanged getitem_unchanged iterate_unchanged
  truthy_unchanged as_str_unchanged unpack_unchanged import_class_unchanged
  load_device_from_config_unchanged load_step_fn_unchanged
  load_loss_fn_unchanged load_callback_unchanged load_saver_unchanged
  load_savers_from_config_unchanged load_model_from_config_unchanged
  load_env_from_config_unchanged load_dataset_from_config_unchanged
  : keeps_db.

(** ** The providers *)


Section ProviderFacts.
Context `{W : World}.

Lemma load_providers_step_no_env cfg env dev s ps st :
  Py.contains "env" cfg st = (inr false, st) ->
  (ContextLoader.load_providers_step cfg env dev s ps st).2 = st.
Proof.
  intros Hc. unfold ContextLoader.load_providers_step. cbv zeta.
  rewrite (bind_run _ _ _ _ _ Hc). cbv iota.
  refine ((_ : keeps unchanged _) st). keeps_auto.
Qed.

Lemma load_providers_loop_no_env cfg env dev ss ps st :
  Py.contains "env" cfg st = (inr false, st) ->
  (for_each ss ps (ContextLoader.load_providers_step cfg env dev) st).2 = st.
Proof.
  intros Hc. revert ps. induction ss as [|s ss IH]; intros ps;
    cbn [for_each]; [done|].
  unfold bind.
  pose proof (load_providers_step_no_env cfg env dev s ps st Hc) as Hst.
  destruct (ContextLoader.load_providers_step cfg env dev s ps st)
    as [[e|ps1] st1]; simpl in Hst; subst st1; [done|]. apply IH.
Qed.

(** X11.  Without an [env] entry in the config, loading the providers
    writes nothing: whether it returns or raises, the config, the file
    system and the trace are as they were. *)
Theorem providers_without_env_write_nothing cfg (split_names : list string)
    dev st :
  Py.contains "env" cfg st = (inr false, st) ->
  (ContextLoader.load_providers_from_config cfg split_names dev st).2 = st.
Proof.
  intros Hc. unfold ContextLoader.load_providers_from_config. cbv zeta.
  rewrite (bind_run _ _ _ _ _ Hc). cbv iota.
  unfold bind at 1, ret at 1. unfold bind.
  pose proof (load_providers_loop_no_env cfg None dev split_names [] st Hc)
    as Hst.
  destruct (for_each split_names []
              (ContextLoader.load_providers_step cfg None dev) st)
    as [[e|ps] st1]; simpl in Hst; by subst st1.
Qed.






End ProviderFacts.

(** ** The contexts as a whole *)

Section ContextFacts.
Context `{W : World}.

Lemma experiment_getitem_same_heap ectx k :
  keeps same_heap (ExperimentContext.getitem ectx k).
Proof. unfold ExperimentContext.getitem. keeps_auto. Qed.

Lemma the_ckpt_same_heap ckpt : keeps same_heap (TrainingContext.the_ckpt ckpt).
Proof. unfold TrainingContext.the_ckpt. keeps_auto. Qed.

Hint Resolve experiment_getitem_same_heap the_ckpt_same_heap : keeps_db.

Lemma training_from_config_touches c ss :
  keeps (touches written_keys) (TrainingContext.from_config c ss).
Proof. unfold TrainingContext.from_config. keeps_auto. Qed.

Lemma prediction_from_config_touches c ss path :
  keeps (touches written_keys) (PredictionContext.from_config c ss path).
Proof. unfold PredictionContext.from_config. keeps_auto. Qed.

Lemma processor_from_config_touches c ss :
  keeps (touches written_keys) (ProcessorContext.from_config c ss).
Proof. unfold ProcessorContext.from_config. keeps_auto. Qed.

(** X13.  No context factory, whether it returns or raises, removes a
    dict of the config or changes an entry of it under any key other
    than [metrics] and [split_name]. *)
Theorem factories_keep_other_entries cfg (split_names : list string)
    (model_path : value) st (l : loc) (d : odict) (k : string) :
  heap st !! l = Some d ->
  k <> "metrics" -> k <> "split_name" ->
  let kept (st' : state) :=
    exists d', heap st' !! l = Some d' /\
               OrderedDict.get d' k = OrderedDict.get d k in
  kept (ExperimentContext.from_config cfg split_names st).2 /\
  kept (TrainingContext.from_config cfg split_names st).2 /\
  kept (PredictionContext.from_config cfg split_names model_path st).2 /\
  kept (ProcessorContext.from_config cfg split_names st).2.
Proof.
  intros Hl Hm Hs kept.
  assert (Hk : k ∉ written_keys).
  { unfold written_keys. rewrite !not_elem_of_cons. split_and!; try done.
    apply not_elem_of_nil. }
  assert (Hkept : forall st', touches written_keys st st' -> kept st').
  { intros st' Ht. destruct (touches_lookup _ _ _ _ _ Ht Hl) as (d' & ? & Hd').
    exists d'. split; [done|]. by apply Hd'. }
  split_and!; apply Hkept.
  - apply from_config_touches.
  - apply training_from_config_touches.
  - apply prediction_from_config_touches.
  - apply processor_from_config_touches.
Qed.

(** X14.  A training context has its six own fields and then the five
    fields of the experiment context, and its optimizer is [Adam] over
    the parameters of the model it holds. *)
Theorem training_context_fields cfg (split_names : list string) st ctx st' :
  TrainingContext.from_config cfg split_names st = (inr ctx, st') ->
  OrderedDict.keys (TrainingContext.holder ctx)
  = ["model"; "optimizer"; "loss_fn"; "step_fn"; "epoch_start"; "savers";
     "config"; "comet"; "device"; "providers"; "callbacks"] /\
  exists model,
    OrderedDict.get (TrainingContext.holder ctx) "model" = Some model /\
    OrderedDict.get (TrainingContext.holder ctx) "optimizer"
    = Some (VInst "torch.optim" "Adam" [VResult model "parameters" []] []).
Proof.
  intros H. unfold TrainingContext.from_config in H.
  inv_bind H as ectx st0 Hectx.
  apply experiment_context_from_config_inr in Hectx
    as (comet & device & providers & callbacks & _ & _ & _ & -> & _).
  inv_bind H as model_config st1 Hmc. inv_bind H as task st2 Htask.
  inv_bind H as model st3 Hmodel.
  inv_run; (split; [reflexivity|]); exists model; split; reflexivity.
Qed.

(** X15.  A prediction context has the field [model] and then the five
    fields of the experiment context; a processor context has the
    fields of the experiment context and no other. *)
Theorem prediction_and_processor_fields cfg (split_names : list string)
    (model_path : value) st :
  (forall ctx st',
      PredictionContext.from_config cfg split_names model_path st
      = (inr ctx, st') ->
      OrderedDict.keys (PredictionContext.holder ctx)
      = ["model"; "config"; "comet"; "device"; "providers"; "callbacks"]) /\
  (forall ctx st',
      ProcessorContext.from_config cfg split_names st = (inr ctx, st') ->
      exists ectx,
        ExperimentContext.from_config cfg split_names st = (inr ectx, st') /\
        ProcessorContext.holder ctx = ExperimentContext.holder ectx).
Proof.
  split.
  - intros ctx st' H. unfold PredictionContext.from_config in H.
    destruct (Py.is_none model_path); [done|].
    inv_bind H as ectx st0 Hectx.
    apply experiment_context_from_config_inr in Hectx
      as (comet & device & providers & callbacks & _ & _ & _ & -> & _).
    inv_run. reflexivity.
  - intros ctx st' H. unfold ProcessorContext.from_config in H.
    inv_bind H as ectx st0 Hectx. inv_ret H. exists ectx. split; [done|].
    apply experiment_context_from_config_inr in Hectx
      as (comet & device & providers & callbacks & _ & _ & _ & -> & _).
    reflexivity.
Qed.

End ContextFacts.

(** ** The defaults of the training context *)

(** Takes the first computation off a successful run and records that
    it left the store as it was. *)
Ltac step_same H :=
  let a := fresh "a" in
  let s := fresh "s" in
  let Hm := fresh "Hm" in
  inv_bind H as a s Hm;
  keeps_of Hm same_heap ltac:(keeps_auto);
  clear Hm.

Section TrainingDefaults.
Context `{W : World}.

Hint Resolve experiment_getitem_same_heap the_ckpt_same_heap : keeps_db.

(** X16.  When the params of the config have no [loss_fn], the training
    context uses the cross-entropy loss that ignores index 0; when they
    have no [step_fn], it uses the default [TrainingStep]. *)
Theorem training_defaults (lc lp : loc) (dc dp : odict)
    (split_names : list string) st ctx st' :
  TrainingContext.from_config (VDict lc) split_names st = (inr ctx, st') ->
  heap st !! lc = Some dc ->
  OrderedDict.get dc "params" = Some (VDict lp) ->
  heap st !! lp = Some dp ->
  (OrderedDict.get dp "loss_fn" = None ->
   OrderedDict.get (TrainingContext.holder ctx) "loss_fn"
   = Some (VInst "torch.nn" "CrossEntropyLoss" []
             [("ignore_index", VInt 0)])) /\
  (OrderedDict.get dp "step_fn" = None ->
   OrderedDict.get (TrainingContext.holder ctx) "step_fn"
   = Some (VInst "torchexpresso.steps" "TrainingStep" [] [])).
Proof.
  intros H Hlc Hparams Hlp.
  unfold TrainingContext.from_config in H.
  inv_bind H as ectx st0 Hectx.
  keeps_of Hectx (touches written_keys) ltac:(keeps_auto). rename K into T.
  apply experiment_context_from_config_inr in Hectx
    as (comet & device & providers & callbacks & _ & _ & _ & -> & _).
  do 13 step_same H.
  assert (T' : touches written_keys st s11).
  { eapply touches_same_heap; [exact T|]. unfold same_heap in *. congruence. }
  clear - T' H Hlc Hparams Hlp.
  inv_bind H as params sa Hp.
  eapply getitem_dict_later in Hp as [Ex Est];
    [|done|not_written|done..]; subst params sa.
  inv_bind H as b sa Hb.
  eapply contains_dict_later in Hb as [Ex Est];
    [|done|not_written|done]; subst b sa.
  inv_bind H as loss_fn sa Hloss.
  keeps_of Hloss same_heap ltac:(keeps_auto).
  assert (T'' : touches written_keys st sa) by by eapply touches_same_heap.
  inv_bind H as params sb Hp.
  eapply getitem_dict_later in Hp as [Ex Est];
    [|done|not_written|done..]; subst params sb.
  inv_bind H as b sb Hb.
  eapply contains_dict_later in Hb as [Ex Est];
    [|done|not_written|done]; subst b sb.
  inv_bind H as step_fn sb Hstep. inv_ret H.
  unfold OrderedDict.mem in *. split.
  - intros Hno. rewrite Hno in Hloss. by inv_ret Hloss.
  - intros Hno. rewrite Hno in Hstep. by inv_ret Hstep.
Qed.

End TrainingDefaults.

(** * The worked example, continued *)

Module DemoExtras.
Import Demo.

(** A tracking config for online tracking that lacks the API key. *)
Definition online : state :=
  mkState {[ 2%positive := [("offline", VBool false)] ]} ∅ [].

(** The callbacks of the demo in the wrong order. *)
Definition forward : state :=
  mkState
    (<[1%positive := [("callbacks", VList [VDict 9; VDict 8])]]> (store false))
    ∅ [].

(** The demo with one saver. *)
Definition saving : state :=
  mkState
    (<[1%positive :=
         (config false ++ [("savers", VList [VDict 12])])%list]>
       (<[12%positive :=
            [("package", VStr "demo.models"); ("class", VStr "OldTagger");
             ("kwargs", VDict 6)]]>
          (store false)))
    ∅ [].

Lemma missing_cometml_witness :
  TrainingContext.from_config cfg splits bare
  = (inl (KeyError (VStr "cometml")), bare).
Proof.
  destruct (missing_cometml_section_raises 1 [("name", VStr "bare")] splits
              (VStr "model.ckpt") bare eq_refl eq_refl eq_refl)
    as (_ & Htraining & _).
  exact Htraining.
Defined.

Lemma api_key_witness :
  ContextLoader.load_cometml_experiment (VDict 2) (VStr "demo") online
  = (inl (KeyError (VStr "api_key")), online).
Proof.
  apply (online_tracking_needs_api_key 2 [("offline", VBool false)]
           (VStr "demo") online); reflexivity.
Defined.

Lemma offline_directory_witness :
  exists created,
    ContextLoader.load_cometml_experiment (VDict 2) (VStr "demo") (start false)
    = (inr comet,
       mkState (store false) created
         [ELogInfo "Writing CometML experiments to %s" [VStr "/tmp/cometml"];
          ECall comet "set_name" [VStr "demo"] []]) /\
    "/tmp" ∈ created /\ "/tmp/cometml" ∈ created.
Proof.
  destruct (offline_directory_is_created_once (W := world) 2
              [("offline", VBool true)]
              (VStr "demo") "/tmp/cometml" (start false)
              eq_refl eq_refl eq_refl)
    as (_ & Hmade & _).
  exists (demo_makedirs "/tmp/cometml" ∅).2. split_and!.
  - apply Hmade; [apply not_elem_of_empty|reflexivity].
  - by apply (bool_decide_unpack _).
  - by apply (bool_decide_unpack _).
Defined.

Lemma unregistered_metric_witness :
  ContextLoader.load_callbacks_from_config cfg comet forward
  = (inl (KeyError (VStr "Accuracy")), forward).
Proof.
  apply (unregistered_metric_raises comet forward 1 9 10
           [("callbacks", VList [VDict 9; VDict 8])]
           [("package", VStr "demo.callbacks"); ("class", VStr "Merger");
            ("kwargs", VDict 10)]
           [("metrics", VList [VStr "Accuracy"])]
           [VDict 8] [] "Accuracy"); reflexivity.
Defined.

Lemma log_checkpoint_witness :
  log_checkpoint comet checkpoint (start false)
  = (inr tt,
     mkState (store false) ∅
       [ECall comet "log_other" [VStr "cp-epoch"; VInt 5] [];
        ECall comet "log_other"
          [VStr "cp-model";
           VMap [("package", VStr "demo.models");
                 ("class", VStr "OldTagger")]] [];
        ECall comet "log_other"
          [VStr "cp-task"; VMap [("name", VStr "old-task")]] []]).
Proof.
  destruct (log_checkpoint_logs_cp_entries comet
              [("state_dict", VStr "weights");
               ("optimizer", VStr "optimizer-state");
               ("cp-epoch", VInt 5);
               ("cp-model",
                VMap [("package", VStr "demo.models");
                      ("class", VStr "OldTagger")]);
               ("cp-task", VMap [("name", VStr "old-task")])]
              (start false) eq_refl)
    as [Hrun Hevents].
  rewrite Hevents in Hrun; [exact Hrun|].
  by apply (bool_decide_unpack _).
Defined.

Lemma apply_prefix_witness :
  apply_prefix (VMap [("batch_size", VInt 8); ("resume", VBool true)]) "exp"
    (start false)
  = (inr (VMap [("exp-batch_size", VInt 8); ("exp-resume", VBool true)]),
     start false).
Proof.
  apply (apply_prefix_renames_parameters
           [("batch_size", VInt 8); ("resume", VBool true)] "exp"
           (start false)).
  simpl. apply NoDup_cons. split; [|apply NoDup_singleton].
  by intros [=]%list_elem_of_singleton.
Defined.

Definition callbacks : result value * state :=
  ContextLoader.load_callbacks_from_config cfg comet (start false).

Lemma callbacks_witness :
  exists registry,
    value_of VNone callbacks = VRegistry "CallbackRegistry" registry /\
    NoDup (OrderedDict.keys registry) /\
    forall name clb,
      OrderedDict.get registry name = Some clb ->
      name_of clb = Some name /\ is_instance clb = true.
Proof.
  apply (callbacks_are_registered_by_name cfg comet (start false)
           (value_of VNone callbacks) callbacks.2).
  vm_compute. reflexivity.
Defined.

Definition savers : result value * state :=
  ContextLoader.load_savers_from_config cfg saving.

Lemma savers_witness :
  savers.2 = saving /\
  exists registry,
    value_of VNone savers = VRegistry "SaverRegistry" registry /\
    NoDup (OrderedDict.keys registry) /\
    (forall name svr,
        OrderedDict.get registry name = Some svr ->
        name_of svr = Some name /\ saver_of cfg saving svr) /\
    (Py.contains "savers" cfg saving = (inr false, saving) -> registry = []).
Proof.
  apply (savers_get_model_and_task cfg saving (value_of VNone savers)
           savers.2).
  vm_compute. reflexivity.
Defined.

Lemma providers_without_env_witness :
  (ContextLoader.load_providers_from_config cfg splits (torch_device "cpu")
     (start false)).2
  = start false.
Proof.
  apply (providers_without_env_write_nothing cfg splits (torch_device "cpu")
           (start false)).
  reflexivity.
Defined.



Lemma kept_entries_witness :
  exists d',
    heap (TrainingContext.from_config cfg splits (start true)).2 !! 6%positive
    = Some d' /\
    OrderedDict.get d' "path" = Some (VStr "corpus").
Proof.
  destruct (factories_keep_other_entries cfg splits (VStr "model.ckpt")
              (start true) 6 [("path", VStr "corpus")] "path" eq_refl)
    as (_ & Htraining & _); [done..|].
  exact Htraining.
Defined.

Lemma training_fields_witness :
  OrderedDict.keys (TrainingContext.holder
                      (value_of (TrainingContext.mk []) training))
  = ["model"; "optimizer"; "loss_fn"; "step_fn"; "epoch_start"; "savers";
     "config"; "comet"; "device"; "providers"; "callbacks"].
Proof.
  assert (Hrun : TrainingContext.from_config cfg splits (start true)
                 = (inr (value_of (TrainingContext.mk []) training),
                    training.2))
    by (vm_compute; reflexivity).
  destruct (training_context_fields cfg splits (start true) _ _ Hrun)
    as [Hkeys _].
  exact Hkeys.
Defined.

Lemma prediction_fields_witness :
  OrderedDict.keys
    (PredictionContext.holder
       (value_of (PredictionContext.mk [])
          (PredictionContext.from_config cfg splits (VStr "model.ckpt")
             (start true))))
  = ["model"; "config"; "comet"; "device"; "providers"; "callbacks"].
Proof.
  destruct (prediction_and_processor_fields cfg splits (VStr "model.ckpt")
              (start true)) as [Hprediction _].
  apply (Hprediction _
           (PredictionContext.from_config cfg splits (VStr "model.ckpt")
              (start true)).2).
  vm_compute. reflexivity.
Defined.

Lemma training_defaults_witness :
  OrderedDict.get (TrainingContext.holder
                     (value_of (TrainingContext.mk []) training)) "loss_fn"
  = Some (VInst "torch.nn" "CrossEntropyLoss" [] [("ignore_index", VInt 0)]).
Proof.
  assert (Hrun : TrainingContext.from_config (VDict 1) splits (start true)
                 = (inr (value_of (TrainingContext.mk []) training),
                    training.2))
    by (vm_compute; reflexivity).
  destruct (training_defaults 1 7 (config true)
              [("batch_size", VInt 8); ("cpu_only", VBool true);
               ("resume", VBool true);
               ("resume_checkpoint_path", VStr "model.ckpt")]
              splits (start true) _ _ Hrun eq_refl eq_refl eq_refl)
    as [Hloss _].
  apply Hloss. reflexivity.
Defined.

End DemoExtras.
